(** * Railway Operations Service: a shallow embedding of [main.py]

    The service is a thin proxy: every handler builds a GraphQL document and
    its bind variables, posts them through [RailwayClient.execute_query], and
    reshapes the decoded reply.  The embedding keeps the three ingredients the
    handlers rely on:

    - the dynamically typed JSON values that [response.json()] returns and
      that the handlers subscript, iterate and test for truthiness;
    - Python exceptions, with [try]/[except] written out;
    - the upstream, as an oracle answering each posted payload, together
      with the log of every payload posted so far. *)

From Stdlib Require Import List String Ascii ZArith Bool Lia.
From Stdlib.Strings Require Import Byte.
From Stdlib Require Import DecimalString.
Import ListNotations.

Open Scope string_scope.
Open Scope list_scope.

Set Warnings "-register-all".

(** ** Python values decoded from JSON *)

(** What [json.loads] produces: [None], [bool], [int], [str], [list] and
    [dict] (in insertion order).  Numbers are the integers; a float literal
    has no counterpart here. *)
Inductive json : Type :=
| JNull
| JBool (b : bool)
| JNum (n : Z)
| JStr (s : string)
| JArr (items : list json)
| JObj (fields : list (string * json)).

(** The exceptions that can travel through the handlers.  [RequestException]
    stands for [requests.exceptions.RequestException] and its subclasses;
    [HTTPException] is FastAPI's, itself a subclass of [Exception]. *)
Inductive request_fault : Type :=
| ConnectionFault (msg : string)
| HTTPError (status : Z)
| JSONDecodeError.

Inductive detail : Type :=
| DStr (s : string)
| DJson (j : json).

Inductive exc : Type :=
| RequestException (f : request_fault)
| HTTPException (status_code : Z) (d : detail)
| KeyError (key : string)
| IndexError
| TypeError
| AttributeError
| ValidationError.

(** [HTTPException(status_code=400, detail=detail)] on a decoded value: the
    constructor puts the phrase of the status in the place of a detail that
    is [None]. *)
Definition bad_request (detail : json) : exc :=
  match detail with
  | JNull => HTTPException 400 (DStr "Bad Request")
  | _ => HTTPException 400 (DJson detail)
  end.

Module Py.

(** [bool(v)]. *)
Definition truthy (v : json) : bool :=
  match v with
  | JNull => false
  | JBool b => b
  | JNum n => negb (n =? 0)%Z
  | JStr s => negb (s =? "")
  | JArr items => match items with [] => false | _ => true end
  | JObj fields => match fields with [] => false | _ => true end
  end.

(** An [Optional[str]] request field as a Python value. *)
Definition of_optional (o : option string) : json :=
  match o with
  | None => JNull
  | Some s => JStr s
  end.

Fixpoint lookup (k : string) (fields : list (string * json)) : option json :=
  match fields with
  | [] => None
  | (k', v) :: rest => if k' =? k then Some v else lookup k rest
  end.

Definition has_key (k : string) (fields : list (string * json)) : bool :=
  match lookup k fields with
  | Some _ => true
  | None => false
  end.

(** [d[k] = v] on a dict: overwrite in place, or append a new key. *)
Fixpoint setitem (k : string) (v : json) (fields : list (string * json))
  : list (string * json) :=
  match fields with
  | [] => [(k, v)]
  | (k', v') :: rest =>
      if k' =? k then (k', v) :: rest else (k', v') :: setitem k v rest
  end.

(** [v[k]] with a string subscript. *)
Definition getitem (v : json) (k : string) : exc + json :=
  match v with
  | JObj fields =>
      match lookup k fields with
      | Some x => inr x
      | None => inl (KeyError k)
      end
  | _ => inl TypeError
  end.

(** [v[0]]. A decoded dict has string keys only, so [0] is never one. *)
Definition getitem0 (v : json) : exc + json :=
  match v with
  | JArr items =>
      match items with
      | x :: _ => inr x
      | [] => inl IndexError
      end
  | JStr s =>
      match s with
      | String c _ => inr (JStr (String c EmptyString))
      | EmptyString => inl IndexError
      end
  | JObj _ => inl (KeyError "0")
  | _ => inl TypeError
  end.

(** [v.get(k, default)]: only a dict has the method. *)
Definition get (v : json) (k : string) (default : json) : exc + json :=
  match v with
  | JObj fields =>
      match lookup k fields with
      | Some x => inr x
      | None => inr default
      end
  | _ => inl AttributeError
  end.

Fixpoint is_prefix (p s : string) : bool :=
  match p, s with
  | EmptyString, _ => true
  | String a p', String b s' => (a =? b)%char && is_prefix p' s'
  | String _ _, EmptyString => false
  end.

Fixpoint is_substring (p s : string) : bool :=
  is_prefix p s ||
  match s with
  | EmptyString => false
  | String _ s' => is_substring p s'
  end.

(** [k in v]: key of a dict, element of a list, substring of a str. *)
Definition contains (k : string) (v : json) : exc + bool :=
  match v with
  | JObj fields => inr (has_key k fields)
  | JArr items =>
      inr (existsb (fun x => match x with JStr s => s =? k | _ => false end)
                   items)
  | JStr s => inr (is_substring k s)
  | _ => inl TypeError
  end.

Fixpoint chars (s : string) : list json :=
  match s with
  | EmptyString => []
  | String c s' => JStr (String c EmptyString) :: chars s'
  end.

(** What [for x in v] walks through. *)
Definition iter (v : json) : exc + list json :=
  match v with
  | JArr items => inr items
  | JObj fields => inr (map (fun kv => JStr (fst kv)) fields)
  | JStr s => inr (chars s)
  | _ => inl TypeError
  end.

Definition lower_ascii (c : ascii) : ascii :=
  let n := nat_of_ascii c in
  if (65 <=? n)%nat && (n <=? 90)%nat then ascii_of_nat (n + 32) else c.

Fixpoint lower_string (s : string) : string :=
  match s with
  | EmptyString => EmptyString
  | String c s' => String (lower_ascii c) (lower_string s')
  end.

(** [v.lower()].  Strings are byte strings here and only [A]-[Z] are
    folded; against the ASCII literal the handler compares with, this
    decides the same names as Python's [str.lower], because no character
    outside ASCII lowers to a letter of that literal. *)
Definition lower (v : json) : exc + string :=
  match v with
  | JStr s => inr (lower_string s)
  | _ => inl AttributeError
  end.

(** [v is True]. *)
Definition is_True (v : json) : bool :=
  match v with
  | JBool true => true
  | _ => false
  end.

(** Pydantic's check of a [str] field of a response model (no coercion
    of other values, as in its second version). *)
Definition as_str (v : json) : exc + string :=
  match v with
  | JStr s => inr s
  | _ => inl ValidationError
  end.

End Py.

(** ** The upstream and the handler monad *)

(** What [requests.post] gives back: an exception of the transport, or a
    response with its status code and its body, [None] when the body is not
    JSON ([response.json()] then raises the [JSONDecodeError] of [requests],
    which is a [RequestException]). *)
Inductive reply : Type :=
| Fault (msg : string)
| Response (status : Z) (body : option json).

(** A handler runs against the log of the payloads posted so far and may
    raise. *)
Definition M (A : Type) : Type := list json -> (exc + A) * list json.

Definition ret {A} (a : A) : M A := fun log => (inr a, log).

Definition raise {A} (e : exc) : M A := fun log => (inl e, log).

Definition bind {A B} (m : M A) (k : A -> M B) : M B :=
  fun log =>
    match m log with
    | (inr a, log') => k a log'
    | (inl e, log') => (inl e, log')
    end.

(** A pure Python operation that may raise. *)
Definition lift {A} (r : exc + A) : M A :=
  match r with
  | inr a => ret a
  | inl e => raise e
  end.

(** [try: m except Exception as e: h e]. *)
Definition try_except {A} (m : M A) (h : exc -> M A) : M A :=
  fun log =>
    match m log with
    | (inr a, log') => (inr a, log')
    | (inl e, log') => h e log'
    end.

(** [try: m except requests.exceptions.RequestException as e: h e]. *)
Definition try_except_request {A} (m : M A) (h : exc -> M A) : M A :=
  fun log =>
    match m log with
    | (inl (RequestException f), log') => h (RequestException f) log'
    | other => other
    end.

Declare Scope py_scope.
Delimit Scope py_scope with py.
Notation "x <- m ;; k" := (bind m (fun x => k))
  (at level 61, m at next level, right associativity) : py_scope.
Notation "m ;;; k" := (bind m (fun _ => k))
  (at level 61, right associativity) : py_scope.
Open Scope py_scope.

(** ** Request and response models *)

Module ServiceCreateRequest.
Record t : Type := Build {
  project_id : string;
  repo : string;
  service_name : option string;
  root_directory : option string
}.
End ServiceCreateRequest.

Module VariableSetRequest.
(** [variables] is a [Dict[str, str]]: the pairs in insertion order. *)
Record t : Type := Build {
  project_id : string;
  service_id : string;
  environment_id : option string;
  variables : list (string * string)
}.
End VariableSetRequest.

Module DeploymentTriggerRequest.
Record t : Type := Build {
  project_id : string;
  service_id : string;
  environment_id : option string
}.
End DeploymentTriggerRequest.

Module ServiceResponse.
Record t : Type := Build {
  id : string;
  name : string;
  created_at : string;
  status : string
}.
End ServiceResponse.

Module VariableResponse.
Record t : Type := Build {
  success : bool;
  variables_set : list string;
  errors : list string
}.
End VariableResponse.

(** ** The GraphQL documents, as the handlers spell them *)

Definition serviceCreate_mutation : string := "
    mutation serviceCreate($input: ServiceCreateInput!) {
      serviceCreate(input: $input) {
        id
        name
        createdAt
      }
    }
    ".

Definition project_query : string := "
        query project($id: String!) {
          project(id: $id) {
            environments {
              edges {
                node {
                  id
                  name
                }
              }
            }
          }
        }
        ".

Definition variableUpsert_mutation : string := "
        mutation variableUpsert($input: VariableUpsertInput!) {
          variableUpsert(input: $input)
        }
        ".

Definition get_deployment_query : string := "
    query deployments($first: Int, $input: DeploymentListInput!) {
      deployments(first: $first, input: $input) {
        edges {
          node {
            id
            status
            createdAt
            url
            canRedeploy
          }
        }
      }
    }
    ".

Definition restart_mutation : string := "
        mutation deploymentRestart($deploymentId: String!) {
          deploymentRestart(id: $deploymentId)
        }
        ".

Definition service_query : string := "
    query service($id: String!) {
      service(id: $id) {
        id
        name
        createdAt
      }
    }
    ".

(** ** [secrets.token_hex] *)

Definition hex_digit (n : N) : ascii :=
  nth (N.to_nat n) (list_ascii_of_string "0123456789abcdef") "0"%char.

Definition hex_of_byte (b : byte) : string :=
  let n := Byte.to_N b in
  String (hex_digit (n / 16)) (String (hex_digit (n mod 16)) EmptyString).

(** [binascii.hexlify(bs).decode('ascii')]. *)
Fixpoint hexlify (bs : list byte) : string :=
  match bs with
  | [] => EmptyString
  | b :: rest => (hex_of_byte b ++ hexlify rest)%string
  end.

(** [secrets.token_bytes(nbytes)]: the next [nbytes] bytes of the system's
    entropy source. *)
Definition token_bytes (urandom : nat -> byte) (nbytes : nat) : list byte :=
  map urandom (seq 0 nbytes).

Definition token_hex (urandom : nat -> byte) (nbytes : nat) : string :=
  hexlify (token_bytes urandom nbytes).

(** ** The client and the handlers *)

Section Service.

(** The upstream answers a payload knowing every payload posted before it:
    any server, stateful or not, is such a function. *)
Variable upstream : list json -> json -> reply.

(** Python's [str(e)]. *)
Variable str : exc -> string.

(** [requests.post(RAILWAY_API_URL, headers=self.headers, json=payload)]. *)
Definition requests_post (payload : json) : M (Z * option json) :=
  fun log =>
    match upstream log payload with
    | Fault msg =>
        (inl (RequestException (ConnectionFault msg)), log ++ [payload])
    | Response status body => (inr (status, body), log ++ [payload])
    end.

(** [response.raise_for_status()]. *)
Definition raise_for_status (status : Z) : M unit :=
  if (400 <=? status)%Z && (status <? 600)%Z
  then raise (RequestException (HTTPError status))
  else ret tt.

(** [response.json()]. *)
Definition response_json (body : option json) : M json :=
  match body with
  | Some result => ret result
  | None => raise (RequestException JSONDecodeError)
  end.

(** The [payload] dict of [execute_query]. *)
Definition request_payload (query : string) (variables : option json)
  : json :=
  let payload := [("query", JStr query)] in
  JObj match variables with
       | Some v =>
           if Py.truthy v then Py.setitem "variables" v payload else payload
       | None => payload
       end.

(** [RailwayClient.execute_query]. *)
Definition execute_query (query : string) (variables : option json)
  : M json :=
  let payload := request_payload query variables in
  try_except_request
    (response <- requests_post payload ;;
     raise_for_status (fst response) ;;;
     result <- response_json (snd response) ;;
     has_errors <- lift (Py.contains "errors" result) ;;
     if has_errors : bool
     then (errors <- lift (Py.getitem result "errors") ;;
           raise (bad_request errors))
     else lift (Py.get result "data" (JObj [])))
    (fun e =>
       raise (HTTPException 500
                (DStr ("Railway API error: " ++ str e)%string))).

(** *** [create_service] *)

(** The [service_input] dict the handler prepares. *)
Definition service_input (request : ServiceCreateRequest.t)
  : list (string * json) :=
  let service_name :=
    Py.of_optional (ServiceCreateRequest.service_name request) in
  let root_directory :=
    Py.of_optional (ServiceCreateRequest.root_directory request) in
  let input :=
    [("projectId", JStr (ServiceCreateRequest.project_id request));
     ("source", JObj [("repo", JStr (ServiceCreateRequest.repo request))])]
  in
  let input :=
    if Py.truthy service_name
    then Py.setitem "name" service_name input else input in
  let input :=
    if Py.truthy root_directory
    then Py.setitem "rootDirectory" root_directory input else input in
  input.

Definition create_service (request : ServiceCreateRequest.t)
  : M ServiceResponse.t :=
  let variables := JObj [("input", JObj (service_input request))] in
  try_except
    (result <- execute_query serviceCreate_mutation (Some variables) ;;
     service_data <- lift (Py.getitem result "serviceCreate") ;;
     _ <- lift (Py.getitem service_data "id") ;;
     id <- lift (Py.getitem service_data "id") ;;
     name <- lift (Py.get service_data "name" (JStr "unnamed")) ;;
     created_at <- lift (Py.getitem service_data "createdAt") ;;
     id <- lift (Py.as_str id) ;;
     name <- lift (Py.as_str name) ;;
     created_at <- lift (Py.as_str created_at) ;;
     ret (ServiceResponse.Build id name created_at "created"))
    (fun e =>
       raise (HTTPException 500
                (DStr ("Service creation failed: " ++ str e)%string))).

(** *** [set_variables] *)

(** The [for env in environments] loop with its [break]. *)
Fixpoint production_loop (environments : list json) (environment_id : json)
  : M json :=
  match environments with
  | [] => ret environment_id
  | env :: rest =>
      node <- lift (Py.getitem env "node") ;;
      name <- lift (Py.getitem node "name") ;;
      lowered <- lift (Py.lower name) ;;
      if lowered =? "production"
      then (node <- lift (Py.getitem env "node") ;;
            lift (Py.getitem node "id"))
      else production_loop rest environment_id
  end.

Definition project_variables (request : VariableSetRequest.t) : json :=
  JObj [("id", JStr (VariableSetRequest.project_id request))].

Definition resolution_failure (e : exc) : VariableResponse.t :=
  VariableResponse.Build false []
    [("Failed to get environment ID: " ++ str e)%string].

(** The first half of the handler, up to the loop over the variables:
    [inl] is the response of the early [return], [inr] the value of
    [environment_id] the loop starts with. *)
Definition resolve_environment_id (request : VariableSetRequest.t)
  : M (VariableResponse.t + json) :=
  let environment_id :=
    Py.of_optional (VariableSetRequest.environment_id request) in
  if negb (Py.truthy environment_id)
  then
    try_except
      (result <- execute_query project_query
                   (Some (project_variables request)) ;;
       project <- lift (Py.getitem result "project") ;;
       envs <- lift (Py.getitem project "environments") ;;
       environments <- lift (Py.getitem envs "edges") ;;
       items <- lift (Py.iter environments) ;;
       environment_id <- production_loop items environment_id ;;
       if negb (Py.truthy environment_id) && Py.truthy environments
       then (first <- lift (Py.getitem0 environments) ;;
             node <- lift (Py.getitem first "node") ;;
             environment_id <- lift (Py.getitem node "id") ;;
             ret (inr environment_id))
       else ret (inr environment_id))
      (fun e => ret (inl (resolution_failure e)))
  else ret (inr environment_id).

Definition upsert_variables (request : VariableSetRequest.t)
    (environment_id : json) (key value : string) : json :=
  JObj [("input",
         JObj [("projectId", JStr (VariableSetRequest.project_id request));
               ("environmentId", environment_id);
               ("serviceId", JStr (VariableSetRequest.service_id request));
               ("name", JStr key);
               ("value", JStr value)])].

(** The [for key, value in request.variables.items()] loop, threading
    [success_vars] and [error_vars]. *)
Fixpoint upsert_loop (request : VariableSetRequest.t) (environment_id : json)
    (items : list (string * string)) (success_vars error_vars : list string)
  : M (list string * list string) :=
  match items with
  | [] => ret (success_vars, error_vars)
  | (key, value) :: rest =>
      lists <-
        try_except
          (result <- execute_query variableUpsert_mutation
                       (Some (upsert_variables request environment_id
                                key value)) ;;
           upserted <- lift (Py.get result "variableUpsert" JNull) ;;
           if Py.is_True upserted
           then ret (success_vars ++ [key], error_vars)
           else ret (success_vars,
                     error_vars ++
                     [("Failed to set " ++ key
                       ++ ": Unexpected response")%string]))
          (fun e =>
             ret (success_vars,
                  error_vars ++
                  [("Failed to set " ++ key ++ ": " ++ str e)%string])) ;;
      upsert_loop request environment_id rest (fst lists) (snd lists)
  end.

Definition set_variables (request : VariableSetRequest.t)
  : M VariableResponse.t :=
  resolved <- resolve_environment_id request ;;
  match resolved with
  | inl early => ret early
  | inr environment_id =>
      lists <- upsert_loop request environment_id
                 (VariableSetRequest.variables request) [] [] ;;
      ret (VariableResponse.Build
             (List.length (snd lists) =? 0)%nat (fst lists) (snd lists))
  end.

(** *** [trigger_deployment] *)

Definition get_variables (request : DeploymentTriggerRequest.t) : json :=
  JObj [("first", JNum 1);
        ("input",
         JObj [("projectId",
                JStr (DeploymentTriggerRequest.project_id request));
               ("serviceId",
                JStr (DeploymentTriggerRequest.service_id request));
               ("environmentId",
                Py.of_optional
                  (DeploymentTriggerRequest.environment_id request))])].

Definition trigger_deployment (request : DeploymentTriggerRequest.t)
  : M json :=
  try_except
    (result <- execute_query get_deployment_query
                 (Some (get_variables request)) ;;
     listing <- lift (Py.getitem result "deployments") ;;
     deployments <- lift (Py.getitem listing "edges") ;;
     (if negb (Py.truthy deployments)
      then raise (HTTPException 404
                    (DStr "No deployments found for this service"))
      else ret tt) ;;;
     first <- lift (Py.getitem0 deployments) ;;
     node <- lift (Py.getitem first "node") ;;
     latest_deployment_id <- lift (Py.getitem node "id") ;;
     restart_result <-
       execute_query restart_mutation
         (Some (JObj [("deploymentId", latest_deployment_id)])) ;;
     restarted <- lift (Py.getitem restart_result "deploymentRestart") ;;
     ret (JObj [("success", JBool true);
                ("deployment_id", latest_deployment_id);
                ("restarted", restarted)]))
    (fun e =>
       raise (HTTPException 500
                (DStr ("Deployment trigger failed: " ++ str e)%string))).

(** *** [get_service_status] *)

Definition service_variables (service_id : string) : json :=
  JObj [("id", JStr service_id)].

Definition get_service_status (service_id : string) : M json :=
  try_except
    (result <- execute_query service_query
                 (Some (service_variables service_id)) ;;
     service <- lift (Py.getitem result "service") ;;
     id <- lift (Py.getitem service "id") ;;
     name <- lift (Py.getitem service "name") ;;
     created_at <- lift (Py.getitem service "createdAt") ;;
     ret (JObj [("service_id", id);
                ("name", name);
                ("created_at", created_at);
                ("status", JStr "active")]))
    (fun e =>
       raise (HTTPException 500
                (DStr ("Status query failed: " ++ str e)%string))).

(** *** [generate_secret_key] *)

(** [urandom] is the entropy the call draws from, [now] the text of
    [datetime.utcnow().isoformat()]. *)
Definition generate_secret_key (urandom : nat -> byte) (now : string)
  : M json :=
  let secret_key := token_hex urandom 32 in
  ret (JObj [("secret_key", JStr secret_key);
             ("length", JNum (Z.of_nat (String.length secret_key)));
             ("generated_at", JStr now)]).

End Service.

(** ** Vocabulary of the statements *)

(** The status codes the spec calls 2xx. *)
Definition is_2xx (status : Z) : bool :=
  (200 <=? status)%Z && (status <? 300)%Z.

(** An outcome that FastAPI turns into a response of the given status. *)
Definition fails_with {A} (status : Z) (r : exc + A) : bool :=
  match r with
  | inl (HTTPException code _) => (code =? status)%Z
  | _ => false
  end.

(** The decoded body carries a non-empty [errors] sequence. *)
Definition nonempty_errors (fields : list (string * json)) : bool :=
  match Py.lookup "errors" fields with
  | Some (JArr (_ :: _)) => true
  | _ => false
  end.

(** What the request model calls a supplied optional field. *)
Definition supplied (o : option string) : bool :=
  match o with
  | Some _ => true
  | None => false
  end.

(** The entry an optional string field contributes to an outbound dict: one
    pair when the field holds a non-empty string, none otherwise. *)
Definition present (o : option string) : option json :=
  match o with
  | Some s => if s =? "" then None else Some (JStr s)
  | None => None
  end.

Definition entry (k : string) (o : option string) : list (string * json) :=
  match present o with
  | Some v => [(k, v)]
  | None => []
  end.

Definition is_hex_digit (c : ascii) : bool :=
  existsb (Ascii.eqb c) (list_ascii_of_string "0123456789abcdef").

Fixpoint hex_value_from (digits : list ascii) (n : N) (c : ascii) : option N :=
  match digits with
  | [] => None
  | d :: rest =>
      if (c =? d)%char then Some n else hex_value_from rest (N.succ n) c
  end.

Definition hex_value : ascii -> option N :=
  hex_value_from (list_ascii_of_string "0123456789abcdef") 0%N.

(** The inverse of [hexlify], to read the bytes back from a key. *)
Fixpoint unhexlify (s : string) : option (list byte) :=
  match s with
  | EmptyString => Some []
  | String hi (String lo rest) =>
      match hex_value hi, hex_value lo, unhexlify rest with
      | Some h, Some l, Some bs =>
          match Byte.of_N (h * 16 + l) with
          | Some b => Some (b :: bs)
          | None => None
          end
      | _, _, _ => None
      end
  | String _ EmptyString => None
  end.

(** What [execute_query] makes of a reply, whatever the document: the code
    itself, run against an upstream that gives this reply. *)
Definition answer (str : exc -> string) (r : reply) : exc + json :=
  fst (execute_query (fun _ _ => r) str "" None []).

(** *** Variable assignment *)

(** The payload of the environment lookup of a request. *)
Definition project_payload (request : VariableSetRequest.t) : json :=
  request_payload project_query (Some (project_variables request)).

(** The payload of the upsert of one variable. *)
Definition upsert_payload (request : VariableSetRequest.t)
    (environment_id : json) (item : string * string) : json :=
  request_payload variableUpsert_mutation
    (Some (upsert_variables request environment_id (fst item) (snd item))).

(** A reply to an upsert counts as a success when the adapter returns a
    result from it and the [variableUpsert] of that result is literally
    [True]; a reply the adapter raises on, or any other result, is a
    failure. *)
Definition upserted (str : exc -> string) (r : reply) : bool :=
  match answer str r with
  | inr result =>
      match Py.get result "variableUpsert" JNull with
      | inr v => Py.is_True v
      | inl _ => false
      end
  | inl _ => false
  end.

(** The variables of a request, each with the verdict on the reply the
    upstream gives when they are upserted one after the other, none skipped,
    on top of the calls in [log]. *)
Fixpoint attempts (upstream : list json -> json -> reply) (str : exc -> string)
    (request : VariableSetRequest.t) (environment_id : json)
    (log : list json) (items : list (string * string))
  : list (string * bool) :=
  match items with
  | [] => []
  | item :: rest =>
      let payload := upsert_payload request environment_id item in
      (fst item, upserted str (upstream log payload))
      :: attempts upstream str request environment_id (log ++ [payload]) rest
  end.

Definition succeeded (results : list (string * bool)) : list string :=
  map fst (filter (fun r => snd r) results).

Definition failed (results : list (string * bool)) : list string :=
  map fst (filter (fun r => negb (snd r)) results).

(** An error entry of the response that is about the given variable. *)
Definition reports (msg key : string) : Prop :=
  Py.is_prefix ("Failed to set " ++ key ++ ": ")%string msg = true.

(** A successful reply carrying [data]. *)
Definition ok (data : json) : reply :=
  Response 200 (Some (JObj [("data", data)])).

(** The reply to the environment lookup, for environments given as
    [(id, name)] pairs. *)
Definition edge (env : string * string) : json :=
  JObj [("node", JObj [("id", JStr (fst env)); ("name", JStr (snd env))])].

Definition environments_reply (envs : list (string * string)) : reply :=
  ok (JObj [("project",
             JObj [("environments", JObj [("edges", JArr (map edge envs))])])]).

Definition is_production (env : string * string) : bool :=
  Py.lower_string (snd env) =? "production".

(** The selection as the handler's comments and the spec word it: the first
    environment named production, whatever the case; failing that, the first
    environment; failing that, none. *)
Definition selected (envs : list (string * string)) : json :=
  match find is_production envs with
  | Some env => JStr (fst env)
  | None =>
      match envs with
      | env :: _ => JStr (fst env)
      | [] => JNull
      end
  end.

(** *** The remaining handlers *)

(** The replies on which the client library raises: an exception of the
    transport, a 4xx or 5xx status, a body that is not JSON. *)
Definition transport_failed (r : reply) : bool :=
  match r with
  | Fault _ => true
  | Response status body =>
      ((400 <=? status)%Z && (status <? 600)%Z)
      || match body with
         | Some _ => false
         | None => true
         end
  end.

(** The reply to the environment lookup with arbitrary edges. *)
Definition edges_reply (items : list json) : reply :=
  ok (JObj [("project",
             JObj [("environments", JObj [("edges", JArr items)])])]).

(** The two payloads of [trigger_deployment]. *)
Definition listing_payload (request : DeploymentTriggerRequest.t) : json :=
  request_payload get_deployment_query (Some (get_variables request)).

Definition restart_payload (latest_deployment_id : json) : json :=
  request_payload restart_mutation
    (Some (JObj [("deploymentId", latest_deployment_id)])).

Definition status_payload (service_id : string) : json :=
  request_payload service_query (Some (service_variables service_id)).

Definition create_payload (request : ServiceCreateRequest.t) : json :=
  request_payload serviceCreate_mutation
    (Some (JObj [("input", JObj (service_input request))])).

(** A field of the dict a handler returned. *)
Definition field (k : string) (r : exc + json) : exc + json :=
  match r with
  | inr response => Py.getitem response k
  | inl e => inl e
  end.

(** An upstream whose reply depends on the payload alone. *)
Definition stateless (upstream : list json -> json -> reply) : Prop :=
  forall log1 log2 payload, upstream log1 payload = upstream log2 payload.

(** A computation whose outcome does not depend on what was posted before
    it. *)
Definition oblivious {A} (m : M A) : Prop :=
  forall log1 log2, fst (m log1) = fst (m log2).

(** ** Test doubles *)

(** An upstream that answers the n-th call with the n-th scripted reply, and
    refuses the connection once the script is over. *)
Definition scripted (replies : list reply) : list json -> json -> reply :=
  fun log _ => nth (List.length log) replies (Fault "connection refused").

(** A rendering of exceptions for the examples. *)
Definition render (e : exc) : string :=
  match e with
  | RequestException (ConnectionFault msg) => msg
  | RequestException (HTTPError _) => "HTTPError"
  | RequestException JSONDecodeError => "JSONDecodeError"
  | HTTPException code (DStr s) =>
      (NilZero.string_of_int (Z.to_int code) ++ ": " ++ s)%string
  | HTTPException _ (DJson _) => "HTTPException"
  | KeyError k => k
  | IndexError => "list index out of range"
  | TypeError => "TypeError"
  | AttributeError => "AttributeError"
  | ValidationError => "ValidationError"
  end.

(** Three variables for an environment given in the request; the upstream
    accepts the first and the third and reports errors on the second. *)
Definition three_variables : VariableSetRequest.t :=
  VariableSetRequest.Build "proj" "svc" (Some "env-1")
    [("A", "1"); ("B", "2"); ("C", "3")].

Definition second_rejected : list json -> json -> reply :=
  scripted [ok (JObj [("variableUpsert", JBool true)]);
            Response 200 (Some (JObj [("errors", JArr [JStr "denied"])]));
            ok (JObj [("variableUpsert", JBool true)])].

(** Two environments, the one named production with an empty id. *)
Definition production_without_id : list (string * string) :=
  [("a", "staging"); ("", "production")].

Definition one_variable : VariableSetRequest.t :=
  VariableSetRequest.Build "proj" "svc" None [("KEY", "value")].

Definition no_deployments : reply :=
  ok (JObj [("deployments", JObj [("edges", JArr [])])]).

Definition trigger : DeploymentTriggerRequest.t :=
  DeploymentTriggerRequest.Build "proj" "svc" None.

Definition new_service : ServiceCreateRequest.t :=
  ServiceCreateRequest.Build "proj" "owner/repo" (Some "api") None.

(** The reply to [serviceCreate] when the upstream leaves the name out. *)
Definition created_without_name : reply :=
  ok (JObj [("serviceCreate",
             JObj [("id", JStr "svc-1");
                   ("createdAt", JStr "2025-09-25T04:47:30Z")])]).

(** A listing with one deployment, and a restart the upstream
    acknowledges with [false]. *)
Definition one_deployment : reply :=
  ok (JObj [("deployments",
             JObj [("edges",
                    JArr [JObj [("node",
                                 JObj [("id", JStr "dep-1");
                                       ("status", JStr "SUCCESS")])]])])]).

Definition restart_refused : reply :=
  ok (JObj [("deploymentRestart", JBool false)]).

Definition service_found : reply :=
  ok (JObj [("service",
             JObj [("id", JStr "svc-1");
                   ("name", JNull);
                   ("createdAt", JStr "2025-09-25T04:47:30Z")])]).

(** An upstream that accepts every upsert, and one that knows a single
    production environment and accepts every upsert. *)
Definition accepting : list json -> json -> reply :=
  fun _ _ => ok (JObj [("variableUpsert", JBool true)]).

(** Environments whose third edge is not an edge at all. *)
Definition production_then_junk : list json :=
  [edge ("a", "staging"); edge ("b", "PRODUCTION"); JNull].

Definition junk_then_production : list json :=
  [edge ("a", "staging"); JNull; edge ("b", "production")].

(** An upstream that accepts three upserts and then refuses the
    connection. *)
Definition three_accepted : list json -> json -> reply :=
  scripted [ok (JObj [("variableUpsert", JBool true)]);
            ok (JObj [("variableUpsert", JBool true)]);
            ok (JObj [("variableUpsert", JBool true)])].

(** A body with both fields of the envelope, and no error in the list. *)
Definition empty_errors_body : list (string * json) :=
  [("errors", JArr []); ("data", JObj [("me", JNull)])].

(** Case analysis on the next Python operation that may raise. *)
Ltac lift_cases :=
  repeat match goal with
    | |- context [lift ?r] =>
        destruct r as [? | ?] eqn:?; cbn [lift raise ret]
    end.

(** ** The adapter *)

Section Adapter.

Variable upstream : list json -> json -> reply.
Variable str : exc -> string.

Lemma bad_request_is_400 {A} (detail : json) :
  fails_with 400 (@inl exc A (bad_request detail)) = true.
Proof. destruct detail; reflexivity. Qed.

Lemma bad_request_is_not_500 {A} (detail : json) :
  fails_with 500 (@inl exc A (bad_request detail)) = false.
Proof. destruct detail; reflexivity. Qed.

Lemma not_4xx_5xx_of_2xx status :
  is_2xx status = true -> (400 <=? status)%Z && (status <? 600)%Z = false.
Proof.
  unfold is_2xx. intros H.
  apply andb_true_iff in H. destruct H as [_ H]. apply Z.ltb_lt in H.
  apply andb_false_iff. left. apply Z.leb_gt. lia.
Qed.

(** Every call posts exactly one payload, and its outcome depends on the
    reply alone. *)
Lemma execute_query_answer query variables log :
  execute_query upstream str query variables log
  = (answer str (upstream log (request_payload query variables)),
     log ++ [request_payload query variables]).
Proof.
  unfold answer, execute_query, try_except_request, bind, requests_post.
  destruct (upstream log (request_payload query variables))
    as [msg | status body]; cbn [fst snd]; [reflexivity |].
  unfold raise_for_status.
  destruct ((400 <=? status)%Z && (status <? 600)%Z); [reflexivity |].
  cbn. destruct body as [result |]; [| reflexivity].
  cbn. destruct (Py.contains "errors" result) as [e | [ | ]]; cbn.
  - destruct e; reflexivity.
  - destruct (Py.getitem result "errors") as [e | errs]; cbn;
      [destruct e | destruct errs]; reflexivity.
  - destruct (Py.get result "data" (JObj [])) as [e | d]; cbn;
      [destruct e |]; reflexivity.
Qed.

Lemma answer_fault msg :
  answer str (Fault msg)
  = inl (HTTPException 500
           (DStr ("Railway API error: "
                  ++ str (RequestException (ConnectionFault msg)))%string)).
Proof. reflexivity. Qed.

Lemma answer_passed status fields :
  (400 <=? status)%Z && (status <? 600)%Z = false ->
  answer str (Response status (Some (JObj fields)))
  = match Py.lookup "errors" fields with
    | Some errs => inl (bad_request errs)
    | None =>
        inr match Py.lookup "data" fields with
            | Some data => data
            | None => JObj []
            end
    end.
Proof.
  intros Hstatus. unfold answer, execute_query, try_except_request, bind,
    requests_post, raise_for_status.
  cbn [fst snd]. rewrite Hstatus. cbn.
  unfold Py.has_key.
  destruct (Py.lookup "errors" fields) as [errs |]; cbn;
    [destruct errs; reflexivity |].
  destruct (Py.lookup "data" fields); reflexivity.
Qed.

Lemma answer_object status fields :
  is_2xx status = true ->
  answer str (Response status (Some (JObj fields)))
  = match Py.lookup "errors" fields with
    | Some errs => inl (bad_request errs)
    | None =>
        inr match Py.lookup "data" fields with
            | Some data => data
            | None => JObj []
            end
    end.
Proof.
  intros H2xx. apply answer_passed, not_4xx_5xx_of_2xx, H2xx.
Qed.

Lemma answer_http_error status body :
  (400 <=? status)%Z && (status <? 600)%Z = true ->
  answer str (Response status body)
  = inl (HTTPException 500
           (DStr ("Railway API error: "
                  ++ str (RequestException (HTTPError status)))%string)).
Proof.
  intros H. unfold answer, execute_query, try_except_request, bind,
    requests_post, raise_for_status.
  cbn [fst snd]. rewrite H. reflexivity.
Qed.

(** The two failures the spec names: a transport fault, be it an exception
    of the client or a 4xx/5xx status, leaves the adapter as a 500, and a
    2xx body with an [errors] key as a 400. *)
Lemma execute_query_fails query variables log :
  match upstream log (request_payload query variables) with
  | Fault _ =>
      fails_with 500 (fst (execute_query upstream str query variables log))
      = true
  | Response status body =>
      ((400 <=? status)%Z && (status <? 600)%Z = true ->
       fails_with 500 (fst (execute_query upstream str query variables log))
       = true)
      /\ (forall fields,
            is_2xx status = true ->
            body = Some (JObj fields) ->
            Py.has_key "errors" fields = true ->
            fails_with 400
              (fst (execute_query upstream str query variables log))
            = true)
  end.
Proof.
  rewrite execute_query_answer. cbn [fst].
  destruct (upstream log (request_payload query variables))
    as [msg | status body]; [reflexivity |].
  split.
  - intros H. rewrite (answer_http_error _ _ H). reflexivity.
  - intros fields H2xx -> Hkey. rewrite (answer_object _ _ H2xx).
    unfold Py.has_key in Hkey.
    destruct (Py.lookup "errors" fields);
      [apply bad_request_is_400 | discriminate].
Qed.

(** A decoded body that is not an object never makes a 400: the membership
    test or the subscript that follows it raises first. *)
Lemma answer_not_object status result :
  is_2xx status = true ->
  (forall fields, result <> JObj fields) ->
  fails_with 400 (answer str (Response status (Some result))) = false.
Proof.
  intros H2xx Hshape. unfold answer, execute_query, try_except_request, bind,
    requests_post, raise_for_status.
  cbn [fst snd]. rewrite (not_4xx_5xx_of_2xx _ H2xx).
  destruct result as [| b | n | s | items | fields]; cbn; try reflexivity.
  - destruct (Py.is_substring "errors" s); reflexivity.
  - destruct (existsb _ items); reflexivity.
  - destruct (Hshape fields eq_refl).
Qed.

Lemma answer_not_json status :
  is_2xx status = true ->
  fails_with 400 (answer str (Response status None)) = false.
Proof.
  intros H2xx. unfold answer, execute_query, try_except_request, bind,
    requests_post, raise_for_status.
  cbn [fst snd]. rewrite (not_4xx_5xx_of_2xx _ H2xx). reflexivity.
Qed.

(** C2, as amended: on a 2xx response the adapter fails with the 400-class
    GraphQL error exactly when the decoded body is an object that has an
    [errors] key, whatever the value under it, an empty sequence included;
    and it does so when the body has a [data] field as well. *)
Theorem execute_query_graphql_error query variables log status body :
  upstream log (request_payload query variables) = Response status body ->
  is_2xx status = true ->
  (fails_with 400 (fst (execute_query upstream str query variables log))
   = true
   <-> exists fields,
         body = Some (JObj fields) /\ Py.has_key "errors" fields = true)
  /\ (forall fields,
        body = Some (JObj fields) ->
        Py.has_key "errors" fields = true ->
        Py.has_key "data" fields = true ->
        fails_with 400 (fst (execute_query upstream str query variables log))
        = true).
Proof.
  intros Hreply H2xx.
  rewrite execute_query_answer, Hreply. cbn [fst].
  assert (Hobject : forall fields,
            fails_with 400 (answer str (Response status (Some (JObj fields))))
            = Py.has_key "errors" fields).
  { intros fields. rewrite (answer_object _ _ H2xx). unfold Py.has_key.
    destruct (Py.lookup "errors" fields) as [errs |];
      [apply bad_request_is_400 | reflexivity]. }
  split.
  - destruct body as [result |].
    + destruct result as [| b | n | s | items | fields].
      6: { rewrite Hobject. split.
           - intros Hkey. exists fields. split; [reflexivity | exact Hkey].
           - intros (fields' & [= <-] & Hkey). exact Hkey. }
      all: rewrite (answer_not_object _ _ H2xx) by discriminate.
      all: split; [discriminate | intros (fields & Hbody & _)];
        discriminate Hbody.
    + rewrite (answer_not_json _ H2xx).
      split; [discriminate | intros (fields & Hbody & _)].
      discriminate Hbody.
  - intros fields -> Herrors _. rewrite Hobject. exact Herrors.
Qed.

(** The detail of that error is the value under [errors], or the phrase of
    the status when that value is null. *)
Lemma execute_query_graphql_error_detail query variables log status fields
    errs :
  upstream log (request_payload query variables)
  = Response status (Some (JObj fields)) ->
  is_2xx status = true ->
  Py.lookup "errors" fields = Some errs ->
  fst (execute_query upstream str query variables log)
  = inl (bad_request errs).
Proof.
  intros Hreply H2xx Herrs.
  rewrite execute_query_answer, Hreply, (answer_object _ _ H2xx), Herrs.
  reflexivity.
Qed.

(** C3, as amended: on a 2xx response whose decoded body is an object and
    does not set off the GraphQL-errors failure, the adapter returns the
    body's [data] field, and the empty mapping when the body has none. *)
Theorem execute_query_returns_data query variables log status fields :
  upstream log (request_payload query variables)
  = Response status (Some (JObj fields)) ->
  is_2xx status = true ->
  fails_with 400 (fst (execute_query upstream str query variables log))
  = false ->
  execute_query upstream str query variables log
  = (inr match Py.lookup "data" fields with
         | Some data => data
         | None => JObj []
         end,
     log ++ [request_payload query variables]).
Proof.
  intros Hreply H2xx.
  rewrite execute_query_answer, Hreply, (answer_object _ _ H2xx).
  cbn [fst].
  destruct (Py.lookup "errors" fields) as [errs |];
    [rewrite bad_request_is_400; discriminate | reflexivity].
Qed.

End Adapter.

(** C2, as stated, fails: a body whose [errors] sequence is empty is rejected
    all the same, because the adapter tests the key and not its value. *)
Lemma empty_errors_rejected :
  ~ (forall upstream str query variables log status fields,
        upstream log (request_payload query variables)
        = Response status (Some (JObj fields)) ->
        is_2xx status = true ->
        (fails_with 400
           (fst (execute_query upstream str query variables log)) = true
         <-> nonempty_errors fields = true)).
Proof.
  intros H.
  specialize
    (H (scripted [Response 200 (Some (JObj empty_errors_body))]) render
       "{ me { id } }" None [] 200%Z empty_errors_body eq_refl eq_refl).
  destruct H as [H _]. discriminate (H eq_refl).
Qed.

Lemma execute_query_graphql_error_witness :
  fails_with 400
    (fst (execute_query
            (scripted [Response 200 (Some (JObj empty_errors_body))]) render
            "{ me { id } }" None []))
  = true.
Proof.
  exact (proj2
    (execute_query_graphql_error
       (scripted [Response 200 (Some (JObj empty_errors_body))]) render
       "{ me { id } }" None [] 200%Z (Some (JObj empty_errors_body))
       eq_refl eq_refl)
    empty_errors_body eq_refl eq_refl eq_refl).
Defined.

(** C3, as stated, fails: a 2xx body that is a list sets off no
    GraphQL-errors failure and yet nothing is returned, the [get] of the
    last line raising on it. *)
Lemma list_body_returns_nothing :
  ~ (forall upstream str query variables log status result,
        upstream log (request_payload query variables)
        = Response status (Some result) ->
        is_2xx status = true ->
        fails_with 400
          (fst (execute_query upstream str query variables log)) = false ->
        exists data,
          fst (execute_query upstream str query variables log) = inr data).
Proof.
  intros claim.
  destruct
    (claim (scripted [Response 200 (Some (JArr []))]) render
       "{ me { id } }" None [] 200%Z (JArr []) eq_refl eq_refl eq_refl)
    as [data Hdata].
  discriminate Hdata.
Qed.

Lemma execute_query_returns_data_witness :
  execute_query (scripted [ok (JObj [("me", JNull)])]) render
    "{ me { id } }" None []
  = (inr (JObj [("me", JNull)]), [JObj [("query", JStr "{ me { id } }")]]).
Proof.
  apply (execute_query_returns_data
           (scripted [ok (JObj [("me", JNull)])]) render
           "{ me { id } }" None [] 200%Z [("data", JObj [("me", JNull)])]);
    reflexivity.
Defined.

(** ** Service creation *)

Section ServiceCreation.

Variable upstream : list json -> json -> reply.
Variable str : exc -> string.

(** The dict after the two conditional assignments. *)
Lemma service_input_entries request :
  service_input request
  = [("projectId", JStr (ServiceCreateRequest.project_id request));
     ("source", JObj [("repo", JStr (ServiceCreateRequest.repo request))])]
    ++ entry "name" (ServiceCreateRequest.service_name request)
    ++ entry "rootDirectory" (ServiceCreateRequest.root_directory request).
Proof.
  destruct request as [p r [n |] [d |]];
    unfold service_input, entry, present; cbn;
    repeat match goal with
      | |- context [?s =? ""] => destruct (s =? ""); cbn
      end;
    reflexivity.
Qed.

Lemma service_input_lookup request k :
  Py.lookup k (service_input request)
  = if k =? "projectId"
    then Some (JStr (ServiceCreateRequest.project_id request))
    else if k =? "source"
    then Some (JObj [("repo", JStr (ServiceCreateRequest.repo request))])
    else if k =? "name"
    then present (ServiceCreateRequest.service_name request)
    else if k =? "rootDirectory"
    then present (ServiceCreateRequest.root_directory request)
    else None.
Proof.
  rewrite service_input_entries. unfold entry.
  destruct (present (ServiceCreateRequest.service_name request));
    destruct (present (ServiceCreateRequest.root_directory request));
    cbn -[String.eqb];
    rewrite ?(String.eqb_sym _ k);
    repeat match goal with
      | |- context [k =? ?c] =>
          destruct (String.eqb_spec k c); subst; cbn -[String.eqb]
      end;
    try reflexivity; try discriminate.
Qed.

Lemma create_service_log request log :
  snd (create_service upstream str request log)
  = log ++ [request_payload serviceCreate_mutation
              (Some (JObj [("input", JObj (service_input request))]))].
Proof.
  unfold create_service, try_except, bind. rewrite execute_query_answer.
  destruct (answer str _) as [e | result]; [reflexivity |].
  repeat match goal with
    | |- context [lift ?r] => destruct r as [? | ?]; cbn; try reflexivity
    end.
Qed.

(** C4, as amended: the outbound input object holds [projectId] and
    [source.repo]; it holds [name] exactly when a non-empty service name is
    supplied and [rootDirectory] exactly when a non-empty root directory is
    supplied, each with the supplied text; it has no other key, and no
    field of it is ever an explicit null.  The object is posted as the
    [input] bind variable of the one call the handler makes. *)
Theorem service_input_fields request :
  let input := service_input request in
  Py.lookup "projectId" input
  = Some (JStr (ServiceCreateRequest.project_id request))
  /\ Py.lookup "source" input
     = Some (JObj [("repo", JStr (ServiceCreateRequest.repo request))])
  /\ Py.lookup "name" input
     = present (ServiceCreateRequest.service_name request)
  /\ Py.lookup "rootDirectory" input
     = present (ServiceCreateRequest.root_directory request)
  /\ (forall k,
        Py.has_key k input = true ->
        In k ["projectId"; "source"; "name"; "rootDirectory"])
  /\ (forall k, Py.lookup k input <> Some JNull)
  /\ (forall log,
        snd (create_service upstream str request log)
        = log ++ [JObj [("query", JStr serviceCreate_mutation);
                        ("variables", JObj [("input", JObj input)])]]).
Proof.
  cbn zeta. repeat split.
  - rewrite service_input_lookup. reflexivity.
  - rewrite service_input_lookup. reflexivity.
  - rewrite service_input_lookup. reflexivity.
  - rewrite service_input_lookup. reflexivity.
  - intros k. unfold Py.has_key. rewrite service_input_lookup.
    repeat match goal with
      | |- context [k =? ?c] => destruct (String.eqb_spec k c); subst
      end; cbn; try tauto; discriminate.
  - intros k. rewrite service_input_lookup.
    unfold present.
    repeat match goal with
      | |- context [k =? ?c] => destruct (String.eqb_spec k c); subst
      | |- context [match ?o with Some _ => _ | None => _ end] =>
          destruct o
      | |- context [if ?s =? "" then _ else _] => destruct (s =? "")
      end; discriminate.
  - intros log. apply create_service_log.
Qed.

End ServiceCreation.

(** C4, as stated, fails: a service name supplied as the empty string is left
    out of the input object. *)
Lemma empty_service_name_omitted :
  ~ (forall request,
        (Py.has_key "name" (service_input request) = true
         <-> supplied (ServiceCreateRequest.service_name request) = true)
        /\ (Py.has_key "rootDirectory" (service_input request) = true
            <-> supplied (ServiceCreateRequest.root_directory request)
                = true)).
Proof.
  intros claim.
  destruct
    (claim (ServiceCreateRequest.Build "proj" "owner/repo" (Some "") None))
    as [[_ H] _].
  discriminate (H eq_refl).
Qed.

(** ** Secret generation *)

Lemma hexlify_cons b rest :
  hexlify (b :: rest)
  = String (hex_digit (Byte.to_N b / 16))
      (String (hex_digit (Byte.to_N b mod 16)) (hexlify rest)).
Proof. reflexivity. Qed.

Lemma hex_of_byte_digits b :
  is_hex_digit (hex_digit (Byte.to_N b / 16)) = true
  /\ is_hex_digit (hex_digit (Byte.to_N b mod 16)) = true.
Proof. destruct b; split; vm_compute; reflexivity. Qed.

Lemma unhex_of_byte b :
  match hex_value (hex_digit (Byte.to_N b / 16)),
        hex_value (hex_digit (Byte.to_N b mod 16)) with
  | Some h, Some l => Byte.of_N (h * 16 + l)
  | _, _ => None
  end = Some b.
Proof. destruct b; vm_compute; reflexivity. Qed.

Lemma hexlify_length bs : String.length (hexlify bs) = 2 * List.length bs.
Proof.
  induction bs as [| b rest IH]; [reflexivity |].
  rewrite hexlify_cons. cbn [String.length List.length]. rewrite IH. lia.
Qed.

Lemma hexlify_digits bs :
  Forall (fun c => is_hex_digit c = true) (list_ascii_of_string (hexlify bs)).
Proof.
  induction bs as [| b rest IH]; [constructor |].
  rewrite hexlify_cons. cbn [list_ascii_of_string].
  destruct (hex_of_byte_digits b) as [Hhi Hlo].
  repeat constructor; assumption.
Qed.

Lemma unhexlify_hexlify bs : unhexlify (hexlify bs) = Some bs.
Proof.
  induction bs as [| b rest IH]; [reflexivity |].
  rewrite hexlify_cons. cbn [unhexlify]. rewrite IH.
  pose proof (unhex_of_byte b) as Hb.
  destruct (hex_value (hex_digit (Byte.to_N b / 16))) as [h |];
    [| discriminate].
  destruct (hex_value (hex_digit (Byte.to_N b mod 16))) as [l |];
    [| discriminate].
  rewrite Hb. reflexivity.
Qed.

Lemma token_bytes_length urandom nbytes :
  List.length (token_bytes urandom nbytes) = nbytes.
Proof. unfold token_bytes. rewrite length_map, length_seq. reflexivity. Qed.

(** C8: whatever the entropy and the clock, and whatever has been posted
    before, the handler answers without posting anything; the key is the
    hexadecimal text of the 32 bytes drawn, from which they can be read
    back; it has 64 characters, all of them hexadecimal digits; and the
    [length] field is the length of that string. *)
Theorem generate_secret_key_shape urandom now log :
  exists secret_key,
    generate_secret_key urandom now log
    = (inr (JObj [("secret_key", JStr secret_key);
                  ("length", JNum (Z.of_nat (String.length secret_key)));
                  ("generated_at", JStr now)]),
       log)
    /\ unhexlify secret_key = Some (map urandom (seq 0 32))
    /\ List.length (map urandom (seq 0 32)) = 32
    /\ String.length secret_key = 64
    /\ Z.of_nat (String.length secret_key) = 64%Z
    /\ Forall (fun c => is_hex_digit c = true)
         (list_ascii_of_string secret_key).
Proof.
  exists (token_hex urandom 32). unfold token_hex.
  assert (Hlen : String.length (hexlify (token_bytes urandom 32)) = 64)
    by (rewrite hexlify_length, token_bytes_length; reflexivity).
  split; [reflexivity |].
  split; [apply unhexlify_hexlify |].
  split; [apply token_bytes_length |].
  split; [exact Hlen |].
  split; [rewrite Hlen; reflexivity | apply hexlify_digits].
Qed.

(** ** Variable assignment *)

Section VariableAssignment.

Variable upstream : list json -> json -> reply.
Variable str : exc -> string.

Lemma is_prefix_append p s : Py.is_prefix p (p ++ s)%string = true.
Proof.
  induction p as [| c p IH]; [reflexivity |].
  cbn. rewrite Ascii.eqb_refl. exact IH.
Qed.

Lemma is_prefix_refl p : Py.is_prefix p p = true.
Proof.
  induction p as [| c p IH]; [reflexivity |].
  cbn. rewrite Ascii.eqb_refl. exact IH.
Qed.

Lemma append_assoc (a b c : string) :
  ((a ++ b) ++ c = a ++ (b ++ c))%string.
Proof.
  induction a as [| x a IH]; [reflexivity |].
  cbn. rewrite IH. reflexivity.
Qed.

Lemma reports_intro key tail :
  reports ("Failed to set " ++ key ++ ": " ++ tail)%string key.
Proof.
  unfold reports.
  rewrite <- (append_assoc key ": " tail).
  rewrite <- (append_assoc "Failed to set " (key ++ ": ") tail).
  apply is_prefix_append.
Qed.

(** One turn of the loop: one payload posted, one name recorded, on the
    side the reply decides. *)
Lemma upsert_loop_cons request environment_id item rest success_vars
    error_vars log :
  let payload := upsert_payload request environment_id item in
  exists msg,
    reports msg (fst item)
    /\ upsert_loop upstream str request environment_id (item :: rest)
         success_vars error_vars log
       = if upserted str (upstream log payload)
         then upsert_loop upstream str request environment_id rest
                (success_vars ++ [fst item]) error_vars (log ++ [payload])
         else upsert_loop upstream str request environment_id rest
                success_vars (error_vars ++ [msg]) (log ++ [payload]).
Proof.
  destruct item as [key value]. cbn zeta. unfold upserted, upsert_payload.
  cbn [upsert_loop fst snd]. unfold bind at 1, try_except, bind.
  rewrite execute_query_answer.
  destruct (answer str _) as [e | result].
  - eexists. split; [| reflexivity]. apply reports_intro.
  - destruct (Py.get result "variableUpsert" JNull) as [e | v];
      cbn [lift raise ret].
    + eexists. split; [| reflexivity]. apply reports_intro.
    + destruct (Py.is_True v); cbn [ret fst snd].
      * exists ("Failed to set " ++ key ++ ": ")%string.
        split; [apply is_prefix_refl | reflexivity].
      * eexists. split; [| reflexivity].
        apply (reports_intro key "Unexpected response").
Qed.

(** The whole loop: every variable is posted, in order, whatever happened
    to the ones before it, and every name ends up on exactly one side. *)
Lemma upsert_loop_spec request environment_id items :
  forall success_vars error_vars log,
  exists msgs,
    upsert_loop upstream str request environment_id items
      success_vars error_vars log
    = (inr (success_vars
            ++ succeeded (attempts upstream str request environment_id
                            log items),
            error_vars ++ msgs),
       log ++ map (upsert_payload request environment_id) items)
    /\ Forall2 reports msgs
         (failed (attempts upstream str request environment_id log items)).
Proof.
  induction items as [| item rest IH]; intros success_vars error_vars log.
  - exists []. cbn. rewrite !app_nil_r. split; [reflexivity | constructor].
  - destruct (upsert_loop_cons request environment_id item rest
                success_vars error_vars log) as (msg & Hmsg & Hstep).
    cbn zeta in Hstep. rewrite Hstep. clear Hstep.
    unfold succeeded, failed. cbn [attempts map filter fst snd].
    destruct (upserted str _); cbn [negb map filter fst snd].
    + destruct (IH (success_vars ++ [fst item]) error_vars
                  (log ++ [upsert_payload request environment_id item]))
        as (msgs & Hrun & Hmsgs).
      exists msgs. rewrite Hrun, <- !app_assoc. split; [reflexivity |].
      exact Hmsgs.
    + destruct (IH success_vars (error_vars ++ [msg])
                  (log ++ [upsert_payload request environment_id item]))
        as (msgs & Hrun & Hmsgs).
      exists (msg :: msgs). rewrite Hrun, <- !app_assoc.
      split; [reflexivity |]. constructor; assumption.
Qed.

(** The lookup loop posts nothing, and its result either is the value it
    started with or does not depend on it. *)
Lemma production_loop_init items log :
  (forall init, production_loop items init log = (inr init, log))
  \/ (exists r, forall init, production_loop items init log = (r, log)).
Proof.
  induction items as [| env rest IH]; [left; reflexivity |].
  cbn [production_loop]. unfold bind.
  destruct (Py.getitem env "node") as [e | node]; cbn [lift raise ret];
    [right; eexists; reflexivity |].
  destruct (Py.getitem node "name") as [e | name]; cbn [lift raise ret];
    [right; eexists; reflexivity |].
  destruct (Py.lower name) as [e | lowered]; cbn [lift raise ret];
    [right; eexists; reflexivity |].
  destruct (lowered =? "production"); [| exact IH].
  right. destruct (Py.getitem node "id") as [e | id]; cbn [lift raise ret];
    eexists; reflexivity.
Qed.

Lemma resolve_supplied request log :
  Py.truthy (Py.of_optional (VariableSetRequest.environment_id request))
  = true ->
  resolve_environment_id upstream str request log
  = (inr (inr (Py.of_optional (VariableSetRequest.environment_id request))),
     log).
Proof.
  intros H. unfold resolve_environment_id. rewrite H. reflexivity.
Qed.

(** When the lookup runs, it posts the project query and nothing else, and
    the handler catches whatever it raises. *)
Lemma resolve_lookup request log :
  Py.truthy (Py.of_optional (VariableSetRequest.environment_id request))
  = false ->
  exists r,
    resolve_environment_id upstream str request log
    = (inr r, log ++ [project_payload request])
    /\ match r with
       | inl early => exists e, early = resolution_failure str e
       | inr _ => True
       end.
Proof.
  intros H. unfold resolve_environment_id. rewrite H. cbn [negb].
  unfold try_except, bind. rewrite execute_query_answer.
  fold (project_payload request).
  assert (Hraise : forall e,
    exists r : VariableResponse.t + json,
      (@inr exc _ (@inl _ json (resolution_failure str e)),
       log ++ [project_payload request])
      = (inr r, log ++ [project_payload request])
      /\ match r with
         | inl early => exists e, early = resolution_failure str e
         | inr _ => True
         end)
    by (intros e; eexists; split; [reflexivity | cbn; eauto]).
  assert (Hret : forall id,
    exists r : VariableResponse.t + json,
      (@inr exc _ (@inr VariableResponse.t _ id),
       log ++ [project_payload request])
      = (inr r, log ++ [project_payload request])
      /\ match r with
         | inl early => exists e, early = resolution_failure str e
         | inr _ => True
         end)
    by (intros id; eexists; split; [reflexivity | exact I]).
  assert (Hfallback : forall environments,
    exists r : VariableResponse.t + json,
      match
        (first <- lift (Py.getitem0 environments) ;;
         node <- lift (Py.getitem first "node") ;;
         environment_id <- lift (Py.getitem node "id") ;;
         ret (@inr VariableResponse.t _ environment_id))
          (log ++ [project_payload request])
      with
      | (inr a, log') => (inr a, log')
      | (inl e, log') => ret (inl (resolution_failure str e)) log'
      end
      = (inr r, log ++ [project_payload request])
      /\ match r with
         | inl early => exists e, early = resolution_failure str e
         | inr _ => True
         end).
  { intros environments. unfold bind.
    destruct (Py.getitem0 environments) as [e | first];
      cbn [lift raise ret]; [apply Hraise |].
    destruct (Py.getitem first "node") as [e | node];
      cbn [lift raise ret]; [apply Hraise |].
    destruct (Py.getitem node "id") as [e | id];
      cbn [lift raise ret]; [apply Hraise | apply Hret]. }
  destruct (answer str _) as [e | result]; [apply Hraise |].
  destruct (Py.getitem result "project") as [e | project];
    cbn [lift raise ret]; [apply Hraise |].
  destruct (Py.getitem project "environments") as [e | envs];
    cbn [lift raise ret]; [apply Hraise |].
  destruct (Py.getitem envs "edges") as [e | environments];
    cbn [lift raise ret]; [apply Hraise |].
  destruct (Py.iter environments) as [e | items];
    cbn [lift raise ret]; [apply Hraise |].
  destruct (production_loop_init items (log ++ [project_payload request]))
    as [Hinit | [r Hr]]; [rewrite Hinit | rewrite Hr].
  - destruct (negb _ && Py.truthy environments);
      [apply Hfallback | apply Hret].
  - destruct r as [e | id]; [apply Hraise |].
    destruct (negb _ && Py.truthy environments);
      [apply Hfallback | apply Hret].
Qed.

Lemma resolve_failure request log e :
  Py.truthy (Py.of_optional (VariableSetRequest.environment_id request))
  = false ->
  fst (execute_query upstream str project_query
         (Some (project_variables request)) log) = inl e ->
  resolve_environment_id upstream str request log
  = (inr (inl (resolution_failure str e)), log ++ [project_payload request]).
Proof.
  intros H Hraise. unfold resolve_environment_id. rewrite H. cbn [negb].
  unfold try_except, bind. rewrite execute_query_answer in *.
  cbn [fst] in Hraise. rewrite Hraise. reflexivity.
Qed.

(** The handler is the lookup followed by the loop. *)
Lemma set_variables_resolved request log environment_id log1 :
  resolve_environment_id upstream str request log
  = (inr (inr environment_id), log1) ->
  exists msgs,
    let results :=
      attempts upstream str request environment_id log1
        (VariableSetRequest.variables request) in
    set_variables upstream str request log
    = (inr (VariableResponse.Build (List.length msgs =? 0)%nat
              (succeeded results) msgs),
       log1 ++ map (upsert_payload request environment_id)
                 (VariableSetRequest.variables request))
    /\ Forall2 reports msgs (failed results).
Proof.
  intros Hres.
  destruct (upsert_loop_spec request environment_id
              (VariableSetRequest.variables request) [] [] log1)
    as (msgs & Hrun & Hmsgs).
  exists msgs. cbn zeta. split; [| exact Hmsgs].
  unfold set_variables, bind. rewrite Hres, Hrun. reflexivity.
Qed.

Lemma set_variables_early request log early log1 :
  resolve_environment_id upstream str request log
  = (inr (inl early), log1) ->
  set_variables upstream str request log = (inr early, log1).
Proof.
  intros Hres. unfold set_variables, bind. rewrite Hres. reflexivity.
Qed.

(** The replies that count as a successful upsert, spelled out: a status
    that is no 4xx or 5xx, and an object without [errors] whose [data] is an
    object with [variableUpsert] set to [true]. *)
Lemma upserted_iff r :
  upserted str r = true
  <-> exists status fields data,
        r = Response status (Some (JObj fields))
        /\ (400 <=? status)%Z && (status <? 600)%Z = false
        /\ Py.lookup "errors" fields = None
        /\ Py.lookup "data" fields = Some (JObj data)
        /\ Py.lookup "variableUpsert" data = Some (JBool true).
Proof.
  split.
  - unfold upserted, answer, execute_query, try_except_request, bind,
      requests_post, raise_for_status.
    cbn [fst snd].
    destruct r as [msg | status body]; cbn; [discriminate |].
    destruct ((400 <=? status)%Z && (status <? 600)%Z) eqn:Hstatus; cbn;
      [discriminate |].
    destruct body as [result |]; cbn; [| discriminate].
    destruct result as [| b | n | s | items | fields]; cbn;
      try discriminate.
    + destruct (Py.is_substring "errors" s); cbn; discriminate.
    + destruct (existsb _ items); cbn; discriminate.
    + unfold Py.has_key.
      destruct (Py.lookup "errors" fields) as [errs |] eqn:Herrors; cbn;
        [destruct errs; cbn; discriminate |].
      destruct (Py.lookup "data" fields) as [d |] eqn:Hdata; cbn;
        [| discriminate].
      destruct d as [| b | n | s | items | data]; cbn; try discriminate.
      destruct (Py.lookup "variableUpsert" data) as [v |] eqn:Hv; cbn;
        [| discriminate].
      destruct v as [| [ | ] | n | s | items | fs]; cbn; try discriminate.
      intros _. exists status, fields, data. repeat split; assumption.
  - intros (status & fields & data & -> & Hstatus & Herrors & Hdata & Hv).
    unfold upserted. rewrite (answer_passed str _ _ Hstatus).
    rewrite Herrors, Hdata. cbn. rewrite Hv. reflexivity.
Qed.

Lemma project_is_not_upsert request environment_id item :
  project_payload request <> upsert_payload request environment_id item.
Proof.
  unfold project_payload, upsert_payload, request_payload,
    project_variables, upsert_variables.
  cbn. intros H. injection H as H. vm_compute in H. discriminate H.
Qed.

Lemma attempts_names request environment_id items :
  forall log,
    map fst (attempts upstream str request environment_id log items)
    = map fst items.
Proof.
  induction items as [| item rest IH]; intros log; [reflexivity |].
  cbn [attempts map fst]. rewrite IH. reflexivity.
Qed.

(** C6: when the environment lookup is needed and its query fails,
    whatever the failure, the handler answers at once with [success=false],
    no variable set and the one message of that failure; the project query
    is the only payload posted, and it is no upsert. *)
Theorem resolution_failure_aborts request log e :
  Py.truthy (Py.of_optional (VariableSetRequest.environment_id request))
  = false ->
  fst (execute_query upstream str project_query
         (Some (project_variables request)) log) = inl e ->
  set_variables upstream str request log
  = (inr (VariableResponse.Build false []
            [("Failed to get environment ID: " ++ str e)%string]),
     log ++ [project_payload request])
  /\ (forall environment_id item,
        project_payload request
        <> upsert_payload request environment_id item).
Proof.
  intros Hfalsy Hraise. split.
  - apply set_variables_early.
    apply (resolve_failure request log e Hfalsy Hraise).
  - intros environment_id item. apply project_is_not_upsert.
Qed.

(** C7: once the loop is reached, one upsert is posted for every variable
    of the mapping, in its order, whatever the replies to the earlier ones;
    [variables_set] is the names whose upsert succeeded, in that order;
    [errors] has one entry for each name whose upsert failed, about that
    name, in that order; and [success] is true exactly when [errors] is
    empty.  The handler itself never raises. *)
Theorem upsert_loop_partial_success request log environment_id log1 :
  resolve_environment_id upstream str request log
  = (inr (inr environment_id), log1) ->
  let results :=
    attempts upstream str request environment_id log1
      (VariableSetRequest.variables request) in
  exists response,
    set_variables upstream str request log
    = (inr response,
       log1 ++ map (upsert_payload request environment_id)
                 (VariableSetRequest.variables request))
    /\ map fst results = map fst (VariableSetRequest.variables request)
    /\ VariableResponse.variables_set response = succeeded results
    /\ Forall2 reports (VariableResponse.errors response) (failed results)
    /\ (VariableResponse.success response = true
        <-> VariableResponse.errors response = []).
Proof.
  intros Hres.
  destruct (set_variables_resolved request log environment_id log1 Hres)
    as (msgs & Hrun & Hmsgs).
  cbn zeta in *. eexists. split; [exact Hrun |].
  split; [apply attempts_names |].
  split; [reflexivity |]. split; [exact Hmsgs |].
  cbn. destruct msgs; cbn; split; congruence.
Qed.

(** C9, as amended: for an empty mapping the handler posts no upsert, only
    the project query when the environment lookup is needed; and it
    answers [success=true] with both lists empty unless that lookup fails,
    in which case it answers the lookup's failure, with [success=false]. *)
Theorem empty_mapping_posts_no_upsert request log :
  VariableSetRequest.variables request = [] ->
  snd (set_variables upstream str request log)
  = log ++ (if Py.truthy
                 (Py.of_optional
                    (VariableSetRequest.environment_id request))
            then [] else [project_payload request])
  /\ match fst (resolve_environment_id upstream str request log) with
     | inr (inr _) =>
         fst (set_variables upstream str request log)
         = inr (VariableResponse.Build true [] [])
     | inr (inl early) =>
         fst (set_variables upstream str request log) = inr early
         /\ exists e, early = resolution_failure str e
     | inl _ => False
     end.
Proof.
  intros Hempty.
  assert (Hloop : forall environment_id log1,
    resolve_environment_id upstream str request log
    = (inr (inr environment_id), log1) ->
    set_variables upstream str request log
    = (inr (VariableResponse.Build true [] []), log1)).
  { intros environment_id log1 Hres.
    unfold set_variables, bind. rewrite Hres, Hempty. reflexivity. }
  destruct (Py.truthy
              (Py.of_optional (VariableSetRequest.environment_id request)))
    eqn:Htruthy.
  - pose proof (resolve_supplied request log Htruthy) as Hres.
    rewrite (Hloop _ _ Hres), Hres. cbn. rewrite app_nil_r. tauto.
  - destruct (resolve_lookup request log Htruthy) as (r & Hres & Hr).
    rewrite Hres. cbn [fst]. destruct r as [early | environment_id].
    + rewrite (set_variables_early _ _ _ _ Hres). cbn. tauto.
    + rewrite (Hloop _ _ Hres). cbn. tauto.
Qed.

End VariableAssignment.

(** C9, as stated, fails: with no environment id in the request and an
    upstream out of reach, the empty mapping is answered [success=false]. *)
Lemma empty_mapping_can_fail :
  ~ (forall upstream str request log,
        VariableSetRequest.variables request = [] ->
        fst (set_variables upstream str request log)
        = inr (VariableResponse.Build true [] [])).
Proof.
  intros claim.
  specialize
    (claim (scripted []) render
       (VariableSetRequest.Build "proj" "svc" None []) [] eq_refl).
  vm_compute in claim. discriminate claim.
Qed.

Lemma empty_mapping_posts_no_upsert_witness :
  snd (set_variables (scripted [environments_reply [("env-1", "production")]])
         render (VariableSetRequest.Build "proj" "svc" None []) [])
  = [project_payload (VariableSetRequest.Build "proj" "svc" None [])]
  /\ fst (set_variables
            (scripted [environments_reply [("env-1", "production")]])
            render (VariableSetRequest.Build "proj" "svc" None []) [])
     = inr (VariableResponse.Build true [] []).
Proof.
  exact (empty_mapping_posts_no_upsert
           (scripted [environments_reply [("env-1", "production")]]) render
           (VariableSetRequest.Build "proj" "svc" None []) [] eq_refl).
Defined.

Lemma resolution_failure_aborts_witness :
  set_variables (scripted []) render
    (VariableSetRequest.Build "proj" "svc" None [("KEY", "value")]) []
  = (inr (VariableResponse.Build false []
            ["Failed to get environment ID: 500: Railway API error: connection refused"]),
     [project_payload
        (VariableSetRequest.Build "proj" "svc" None [("KEY", "value")])]).
Proof.
  exact (proj1
    (resolution_failure_aborts (scripted []) render
       (VariableSetRequest.Build "proj" "svc" None [("KEY", "value")]) []
       (HTTPException 500 (DStr "Railway API error: connection refused"))
       eq_refl eq_refl)).
Defined.

Lemma upsert_loop_partial_success_witness :
  let results :=
    attempts second_rejected render three_variables (JStr "env-1") []
      (VariableSetRequest.variables three_variables) in
  exists response,
    set_variables second_rejected render three_variables []
    = (inr response,
       [] ++ map (upsert_payload three_variables (JStr "env-1"))
               (VariableSetRequest.variables three_variables))
    /\ map fst results
       = map fst (VariableSetRequest.variables three_variables)
    /\ VariableResponse.variables_set response = succeeded results
    /\ Forall2 reports (VariableResponse.errors response) (failed results)
    /\ (VariableResponse.success response = true
        <-> VariableResponse.errors response = []).
Proof.
  exact (upsert_loop_partial_success second_rejected render three_variables
           [] (JStr "env-1") [] eq_refl).
Defined.

(** The run behind the witness: the second failure does not stop the
    third upsert. *)
Example second_rejected_run :
  fst (set_variables second_rejected render three_variables [])
  = inr (VariableResponse.Build false ["A"; "C"]
           ["Failed to set B: HTTPException"])
  /\ List.length (snd (set_variables second_rejected render three_variables
                         [])) = 3.
Proof. split; reflexivity. Qed.

(** ** Truthiness of the optional fields *)

Section Truthiness.

Variable upstream : list json -> json -> reply.
Variable str : exc -> string.

Lemma resolve_empty_or_absent p s vars log :
  let absent :=
    resolve_environment_id upstream str
      (VariableSetRequest.Build p s None vars) log in
  let empty :=
    resolve_environment_id upstream str
      (VariableSetRequest.Build p s (Some "") vars) log in
  fst empty = fst absent
  \/ (fst absent = inr (inr JNull) /\ fst empty = inr (inr (JStr ""))).
Proof.
  cbn zeta. unfold resolve_environment_id.
  cbn [VariableSetRequest.environment_id Py.of_optional Py.truthy negb
       String.eqb].
  unfold project_variables. cbn [VariableSetRequest.project_id].
  unfold try_except, bind. rewrite !execute_query_answer.
  destruct (answer str _) as [e | result]; [left; reflexivity |].
  destruct (Py.getitem result "project") as [e | project];
    cbn [lift raise ret]; [left; reflexivity |].
  destruct (Py.getitem project "environments") as [e | envs];
    cbn [lift raise ret]; [left; reflexivity |].
  destruct (Py.getitem envs "edges") as [e | environments];
    cbn [lift raise ret]; [left; reflexivity |].
  destruct (Py.iter environments) as [e | items];
    cbn [lift raise ret]; [left; reflexivity |].
  match goal with
  | |- context [production_loop items _ ?l] =>
      destruct (production_loop_init items l) as [Hinit | [r Hr]]
  end.
  - rewrite !Hinit.
    cbn [Py.truthy negb String.eqb andb].
    destruct (Py.truthy environments); [left; reflexivity |].
    right. split; reflexivity.
  - rewrite !Hr. left. reflexivity.
Qed.

(** C10: an environment id supplied as the empty string sets off the same
    lookup as an absent one: the same project query is posted and nothing
    else, and the outcome is the same, a failure or the environment
    selected, except that when nothing is selected each request keeps its
    own value.  A service name or a root directory supplied as the empty
    string gives the very run of [create_service] that an absent one
    gives, input object included. *)
Theorem empty_string_counts_as_absent :
  (forall p s vars log,
      let absent :=
        resolve_environment_id upstream str
          (VariableSetRequest.Build p s None vars) log in
      let empty :=
        resolve_environment_id upstream str
          (VariableSetRequest.Build p s (Some "") vars) log in
      snd empty
      = log ++ [project_payload (VariableSetRequest.Build p s None vars)]
      /\ snd empty = snd absent
      /\ (fst empty = fst absent
          \/ (fst absent = inr (inr JNull)
              /\ fst empty = inr (inr (JStr "")))))
  /\ (forall p r d log,
        service_input (ServiceCreateRequest.Build p r (Some "") d)
        = service_input (ServiceCreateRequest.Build p r None d)
        /\ create_service upstream str
             (ServiceCreateRequest.Build p r (Some "") d) log
           = create_service upstream str
               (ServiceCreateRequest.Build p r None d) log)
  /\ (forall p r n log,
        service_input (ServiceCreateRequest.Build p r n (Some ""))
        = service_input (ServiceCreateRequest.Build p r n None)
        /\ create_service upstream str
             (ServiceCreateRequest.Build p r n (Some "")) log
           = create_service upstream str
               (ServiceCreateRequest.Build p r n None) log).
Proof.
  split; [| split].
  - intros p s vars log. cbn zeta.
    destruct (resolve_lookup upstream str
                (VariableSetRequest.Build p s None vars) log eq_refl)
      as (r0 & H0 & _).
    destruct (resolve_lookup upstream str
                (VariableSetRequest.Build p s (Some "") vars) log eq_refl)
      as (r1 & H1 & _).
    split; [rewrite H1; reflexivity |].
    split; [rewrite H0, H1; reflexivity |].
    apply resolve_empty_or_absent.
  - intros p r d log. split; reflexivity.
  - intros p r n log.
    assert (Hin : service_input (ServiceCreateRequest.Build p r n (Some ""))
                  = service_input (ServiceCreateRequest.Build p r n None))
      by (rewrite !service_input_entries; reflexivity).
    split; [exact Hin |].
    unfold create_service. rewrite Hin. reflexivity.
Qed.

End Truthiness.

(** ** Environment selection *)

Section EnvironmentSelection.

Variable upstream : list json -> json -> reply.
Variable str : exc -> string.

Lemma answer_ok data : answer str (ok data) = inr data.
Proof. reflexivity. Qed.

Lemma production_loop_edges envs init log :
  production_loop (map edge envs) init log
  = (inr match find is_production envs with
         | Some env => JStr (fst env)
         | None => init
         end,
     log).
Proof.
  induction envs as [| env rest IH]; [reflexivity |].
  cbn [map find production_loop]. unfold bind at 1. cbn.
  unfold is_production at 1.
  destruct (Py.lower_string (snd env) =? "production"); [reflexivity |].
  exact IH.
Qed.

(** On a list of environments whose production entry, if any, has a
    non-empty id, the lookup selects what the comments of the handler
    announce. *)
Lemma resolution_selects request log envs :
  VariableSetRequest.environment_id request = None ->
  upstream log (project_payload request) = environments_reply envs ->
  (forall env, find is_production envs = Some env -> fst env <> "") ->
  resolve_environment_id upstream str request log
  = (inr (inr (selected envs)), log ++ [project_payload request]).
Proof.
  intros Hnone Hreply Hid.
  unfold resolve_environment_id. rewrite Hnone.
  cbn [Py.of_optional Py.truthy negb].
  unfold try_except, bind. rewrite execute_query_answer.
  fold (project_payload request). rewrite Hreply.
  unfold environments_reply. rewrite answer_ok.
  cbn [lift raise ret Py.getitem Py.lookup String.eqb Ascii.eqb Bool.eqb
       Py.iter].
  rewrite production_loop_edges. unfold selected.
  destruct (find is_production envs) as [env |] eqn:Hfind.
  - specialize (Hid env eq_refl).
    cbn [Py.truthy]. destruct (String.eqb_spec (fst env) "") as [? | _];
      [contradiction |].
    reflexivity.
  - destruct envs as [| env rest]; reflexivity.
Qed.

(** With no environment upstream the id stays [None], and the upserts are
    posted with it. *)
Lemma unresolved_environment_still_upserts request log :
  VariableSetRequest.environment_id request = None ->
  upstream log (project_payload request) = environments_reply [] ->
  snd (set_variables upstream str request log)
  = (log ++ [project_payload request])
    ++ map (upsert_payload request JNull)
         (VariableSetRequest.variables request).
Proof.
  intros Hnone Hreply.
  assert (Hres : resolve_environment_id upstream str request log
                 = (inr (inr (selected [])),
                    log ++ [project_payload request]))
    by (apply resolution_selects; [assumption | assumption | discriminate]).
  destruct (set_variables_resolved upstream str request log _ _ Hres)
    as (msgs & Hrun & _).
  cbn zeta in Hrun. rewrite Hrun. reflexivity.
Qed.

End EnvironmentSelection.

(** The selection scenario of the spec: production is found whatever its
    case, though it is not the first of the list. *)
Example selection_is_case_insensitive :
  resolve_environment_id
    (scripted [environments_reply [("a", "staging"); ("b", "Production")]])
    render one_variable []
  = (inr (inr (JStr "b")), [project_payload one_variable]).
Proof.
  apply (resolution_selects
           (scripted
              [environments_reply [("a", "staging"); ("b", "Production")]])
           render one_variable []
           [("a", "staging"); ("b", "Production")]);
    [reflexivity | reflexivity |].
  intros env [= <-]. discriminate.
Qed.

(** C5 at an input where the handler departs from it: the production
    environment comes second and its id is the empty string.  The selection
    announced is that id; the handler, which takes a falsy id after the
    search for a failed search, falls back to the first environment and
    posts the upsert with its id. *)
Theorem production_with_empty_id_is_skipped :
  selected production_without_id = JStr ""
  /\ set_variables
       (scripted [environments_reply production_without_id;
                  ok (JObj [("variableUpsert", JBool true)])])
       render one_variable []
     = (inr (VariableResponse.Build true ["KEY"] []),
        [project_payload one_variable;
         upsert_payload one_variable (JStr "a") ("KEY", "value")]).
Proof. split; reflexivity. Qed.

(** ** Deployment trigger *)

Section DeploymentTrigger.

Variable upstream : list json -> json -> reply.
Variable str : exc -> string.

(** The [HTTPException] raised for an empty listing is raised inside the
    [try] and caught by its [except Exception]: it leaves the handler as a
    500, after the one call of the listing. *)
Lemma trigger_deployment_empty request log result listing deployments :
  fst (execute_query upstream str get_deployment_query
         (Some (get_variables request)) log) = inr result ->
  Py.getitem result "deployments" = inr listing ->
  Py.getitem listing "edges" = inr deployments ->
  Py.truthy deployments = false ->
  trigger_deployment upstream str request log
  = (inl (HTTPException 500
            (DStr ("Deployment trigger failed: "
                   ++ str (HTTPException 404
                             (DStr "No deployments found for this service")))
               %string)),
     log ++ [request_payload get_deployment_query
               (Some (get_variables request))]).
Proof.
  intros Hquery Hlisting Hedges Hempty.
  unfold trigger_deployment, try_except, bind.
  rewrite execute_query_answer in *. cbn [fst] in Hquery.
  rewrite Hquery, Hlisting. cbn [lift raise ret].
  rewrite Hedges. cbn [lift raise ret]. rewrite Hempty. reflexivity.
Qed.

End DeploymentTrigger.

(** C1 at a service without deployments: the restart is not attempted, the
    listing being the only payload posted, but the error that reaches the
    caller is a 500 wrapping the text of the 404, not a 404. *)
Theorem no_deployments_surfaces_as_500 :
  trigger_deployment (scripted [no_deployments]) render trigger []
  = (inl (HTTPException 500
            (DStr "Deployment trigger failed: 404: No deployments found for this service")),
     [request_payload get_deployment_query (Some (get_variables trigger))])
  /\ fails_with 404
       (fst (trigger_deployment (scripted [no_deployments]) render trigger []))
     = false.
Proof. split; reflexivity. Qed.


(** ** More on the adapter *)

Section AdapterEdges.

Variable upstream : list json -> json -> reply.
Variable str : exc -> string.

(** What the adapter makes of a decoded body once the status has passed. *)
Lemma answer_decoded status result :
  (400 <=? status)%Z && (status <? 600)%Z = false ->
  answer str (Response status (Some result))
  = match result with
    | JObj fields =>
        match Py.lookup "errors" fields with
        | Some errs => inl (bad_request errs)
        | None =>
            inr match Py.lookup "data" fields with
                | Some data => data
                | None => JObj []
                end
        end
    | JArr items =>
        if existsb (fun x => match x with
                             | JStr s => s =? "errors"
                             | _ => false
                             end) items
        then inl TypeError else inl AttributeError
    | JStr s =>
        if Py.is_substring "errors" s then inl TypeError
        else inl AttributeError
    | _ => inl TypeError
    end.
Proof.
  intros Hstatus.
  destruct result as [| b | n | s | items | fields];
    try (apply answer_passed; exact Hstatus);
    unfold answer, execute_query, try_except_request, bind,
      requests_post, raise_for_status;
    cbn [fst snd]; rewrite Hstatus; cbn; try reflexivity.
  - destruct (Py.is_substring "errors" s); reflexivity.
  - destruct (existsb _ items); reflexivity.
Qed.

Lemma answer_not_json_passed status :
  (400 <=? status)%Z && (status <? 600)%Z = false ->
  answer str (Response status None)
  = inl (HTTPException 500
           (DStr ("Railway API error: "
                  ++ str (RequestException JSONDecodeError))%string)).
Proof.
  intros Hstatus. unfold answer, execute_query, try_except_request, bind,
    requests_post, raise_for_status.
  cbn [fst snd]. rewrite Hstatus. reflexivity.
Qed.

(** X1: the adapter raises a 500 exactly when the client library raised: on
    an exception of the transport, on a 4xx or 5xx status, on a body that is
    not JSON; and the detail of that 500 is the text of the library's
    exception after the words [Railway API error: ]. *)
Theorem execute_query_500_iff_transport query variables log :
  (fails_with 500 (fst (execute_query upstream str query variables log))
   = true
   <-> transport_failed (upstream log (request_payload query variables))
       = true)
  /\ (transport_failed (upstream log (request_payload query variables))
      = true ->
      exists f,
        fst (execute_query upstream str query variables log)
        = inl (HTTPException 500
                 (DStr ("Railway API error: "
                        ++ str (RequestException f))%string))).
Proof.
  rewrite execute_query_answer. cbn [fst].
  destruct (upstream log (request_payload query variables))
    as [msg | status body].
  - rewrite answer_fault. cbn. split; [tauto |]. intros _. eexists.
    reflexivity.
  - cbn [transport_failed].
    destruct ((400 <=? status)%Z && (status <? 600)%Z) eqn:Hstatus.
    + rewrite (answer_http_error _ _ _ Hstatus). cbn.
      split; [tauto |]. intros _. eexists. reflexivity.
    + cbn [orb]. destruct body as [result |].
      * rewrite (answer_decoded _ _ Hstatus). split; [| discriminate].
        destruct result as [| b | n | s | items | fields]; cbn;
          try (split; discriminate).
        -- destruct (Py.is_substring "errors" s); cbn; split; discriminate.
        -- destruct (existsb _ items); cbn; split; discriminate.
        -- destruct (Py.lookup "errors" fields) as [errs |];
             [rewrite (bad_request_is_not_500 errs) |]; cbn;
             split; discriminate.
      * rewrite (answer_not_json_passed _ Hstatus). cbn.
        split; [tauto |]. intros _. eexists. reflexivity.
Qed.

(** X2: the status matters only through the 4xx/5xx test of
    [raise_for_status]: a response with any other status, a 3xx or a 1xx as
    well, is handled like a 200 with the same body. *)
Theorem execute_query_status_window query variables log status body :
  upstream log (request_payload query variables) = Response status body ->
  (400 <=? status)%Z && (status <? 600)%Z = false ->
  execute_query upstream str query variables log
  = execute_query (fun _ _ => Response 200 body) str query variables log.
Proof.
  intros Hreply Hstatus.
  rewrite !execute_query_answer, Hreply. f_equal.
  destruct body as [result |].
  - rewrite (answer_decoded _ _ Hstatus).
    rewrite (answer_decoded 200 result eq_refl). reflexivity.
  - rewrite (answer_not_json_passed _ Hstatus). reflexivity.
Qed.

(** X3: a call posts exactly one payload, whatever its outcome; the payload
    has the document under [query], and the bind variables under
    [variables] only when they are truthy: [None] and the empty dict are
    left out. *)
Theorem execute_query_posts_once query variables log :
  exists fields,
    snd (execute_query upstream str query variables log)
    = log ++ [JObj fields]
    /\ Py.lookup "query" fields = Some (JStr query)
    /\ Py.lookup "variables" fields
       = match variables with
         | Some v => if Py.truthy v then Some v else None
         | None => None
         end
    /\ (forall k, Py.has_key k fields = true -> k = "query" \/ k = "variables").
Proof.
  rewrite execute_query_answer. cbn [snd]. unfold request_payload.
  assert (Hkeys : forall (k : string) (fields : list (string * json)),
            (forall v, Py.lookup k (("query", JStr query) :: fields) = Some v ->
                       k = "query" \/ Py.lookup k fields = Some v)).
  { intros k fields v. cbn -[String.eqb].
    destruct (String.eqb_spec "query" k); [left; congruence | tauto]. }
  destruct variables as [v |]; [destruct (Py.truthy v) |].
  - exists [("query", JStr query); ("variables", v)].
    repeat (split; [reflexivity |]).
    intros k. unfold Py.has_key.
    destruct (Py.lookup k _) as [x |] eqn:Hk; [| discriminate].
    intros _. destruct (Hkeys _ _ _ Hk) as [-> | Hk']; [tauto |].
    right. revert Hk'. cbn -[String.eqb].
    destruct (String.eqb_spec "variables" k); [congruence | discriminate].
  - exists [("query", JStr query)].
    repeat (split; [reflexivity |]).
    intros k. unfold Py.has_key.
    destruct (Py.lookup k _) as [x |] eqn:Hk; [| discriminate].
    intros _. destruct (Hkeys _ _ _ Hk) as [-> | Hk']; [tauto |].
    discriminate Hk'.
  - exists [("query", JStr query)].
    repeat (split; [reflexivity |]).
    intros k. unfold Py.has_key.
    destruct (Py.lookup k _) as [x |] eqn:Hk; [| discriminate].
    intros _. destruct (Hkeys _ _ _ Hk) as [-> | Hk']; [tauto |].
    discriminate Hk'.
Qed.

(** X4: a decoded body that is no object, passed by the status test, makes
    the adapter raise a bare [TypeError] or [AttributeError]: neither of its
    two [HTTPException]s, and no result. *)
Theorem execute_query_non_object_body query variables log status result :
  upstream log (request_payload query variables)
  = Response status (Some result) ->
  (400 <=? status)%Z && (status <? 600)%Z = false ->
  (forall fields, result <> JObj fields) ->
  fst (execute_query upstream str query variables log) = inl TypeError
  \/ fst (execute_query upstream str query variables log)
     = inl AttributeError.
Proof.
  intros Hreply Hstatus Hshape.
  rewrite execute_query_answer, Hreply. cbn [fst].
  rewrite (answer_decoded _ _ Hstatus).
  destruct result as [| b | n | s | items | fields]; try tauto.
  - destruct (Py.is_substring "errors" s); tauto.
  - destruct (existsb _ items); tauto.
  - destruct (Hshape fields eq_refl).
Qed.

End AdapterEdges.

Lemma execute_query_status_window_witness :
  execute_query
    (scripted [Response 302 (Some (JObj [("data", JObj [("me", JNull)])]))])
    render "{ me { id } }" None []
  = (inr (JObj [("me", JNull)]), [JObj [("query", JStr "{ me { id } }")]]).
Proof.
  exact (execute_query_status_window
           (scripted
              [Response 302 (Some (JObj [("data", JObj [("me", JNull)])]))])
           render "{ me { id } }" None [] 302%Z
           (Some (JObj [("data", JObj [("me", JNull)])])) eq_refl eq_refl).
Defined.

Lemma execute_query_non_object_body_witness :
  fst (execute_query (scripted [Response 200 (Some (JArr []))]) render
         "{ me { id } }" None []) = inl TypeError
  \/ fst (execute_query (scripted [Response 200 (Some (JArr []))]) render
            "{ me { id } }" None []) = inl AttributeError.
Proof.
  apply (execute_query_non_object_body
           (scripted [Response 200 (Some (JArr []))]) render
           "{ me { id } }" None [] 200%Z (JArr []));
    [reflexivity | reflexivity | discriminate].
Defined.


(** ** Service creation, the response *)

Section ServiceCreationResponse.

Variable upstream : list json -> json -> reply.
Variable str : exc -> string.

(** X5: when the upstream answers [serviceCreate] with an object whose [id]
    and [createdAt] are strings, the response carries them verbatim, with
    the name of the object when it has one and [unnamed] when it has none,
    and the status [created]; one payload is posted. *)
Theorem create_service_success request log service id name created_at :
  upstream log (create_payload request)
  = ok (JObj [("serviceCreate", JObj service)]) ->
  Py.lookup "id" service = Some (JStr id) ->
  Py.lookup "createdAt" service = Some (JStr created_at) ->
  match Py.lookup "name" service with
  | Some v => v = JStr name
  | None => name = "unnamed"
  end ->
  create_service upstream str request log
  = (inr (ServiceResponse.Build id name created_at "created"),
     log ++ [create_payload request]).
Proof.
  intros Hreply Hid Hcreated Hname.
  unfold create_service, try_except, bind. rewrite execute_query_answer.
  fold (create_payload request). rewrite Hreply.
  unfold ok. rewrite (answer_object str 200 _ eq_refl).
  cbn [Py.lookup String.eqb Ascii.eqb Bool.eqb lift ret raise Py.getitem
       Py.get].
  rewrite Hid, Hcreated. cbn [lift ret raise].
  destruct (Py.lookup "name" service) as [v |]; subst; reflexivity.
Qed.

(** X6: the handler leaves in two ways only: with a response whose status
    is [created], or with a 500 whose detail is [Service creation failed: ]
    followed by the text of what was raised, be it the adapter's 400, a
    missing key or a field that is no string; and it has posted the one
    payload of the mutation in either case. *)
Theorem create_service_outcomes request log :
  snd (create_service upstream str request log)
  = log ++ [create_payload request]
  /\ match fst (create_service upstream str request log) with
     | inr response => ServiceResponse.status response = "created"
     | inl e =>
         exists cause,
           e = HTTPException 500
                 (DStr ("Service creation failed: " ++ str cause)%string)
     end.
Proof.
  split; [apply create_service_log |].
  unfold create_service, try_except, bind. rewrite execute_query_answer.
  destruct (answer str _) as [e | result]; cbn [fst]; [eexists; reflexivity |].
  lift_cases; cbn [fst]; first [reflexivity | eexists; reflexivity].
Qed.

End ServiceCreationResponse.

Lemma create_service_success_witness :
  create_service (scripted [created_without_name]) render new_service []
  = (inr (ServiceResponse.Build "svc-1" "unnamed" "2025-09-25T04:47:30Z"
            "created"),
     [] ++ [create_payload new_service]).
Proof.
  exact (create_service_success (scripted [created_without_name]) render
           new_service []
           [("id", JStr "svc-1"); ("createdAt", JStr "2025-09-25T04:47:30Z")]
           "svc-1" "unnamed" "2025-09-25T04:47:30Z"
           eq_refl eq_refl eq_refl eq_refl).
Defined.

(** ** Deployment trigger, the two calls *)

Section DeploymentTriggerCalls.

Variable upstream : list json -> json -> reply.
Variable str : exc -> string.

(** X7: when the listing has a first edge whose node has an [id], and the
    restart posted for that id comes back with a [deploymentRestart] field,
    the handler answers [success: True] with that id and that field
    verbatim, whatever the field says; the listing and the restart are the
    two payloads posted, in that order, and the later edges are not read. *)
Theorem trigger_deployment_success request log first_edge node others latest
    restart ack :
  upstream log (listing_payload request)
  = ok (JObj [("deployments",
               JObj [("edges", JArr (JObj first_edge :: others))])]) ->
  Py.lookup "node" first_edge = Some (JObj node) ->
  Py.lookup "id" node = Some latest ->
  upstream (log ++ [listing_payload request]) (restart_payload latest)
  = ok (JObj restart) ->
  Py.lookup "deploymentRestart" restart = Some ack ->
  trigger_deployment upstream str request log
  = (inr (JObj [("success", JBool true);
                ("deployment_id", latest);
                ("restarted", ack)]),
     log ++ [listing_payload request; restart_payload latest]).
Proof.
  intros Hlisting Hnode Hid Hrestart Hack.
  unfold trigger_deployment, try_except, bind.
  rewrite execute_query_answer. fold (listing_payload request).
  rewrite Hlisting. unfold ok at 1. rewrite (answer_object str 200 _ eq_refl).
  cbn [Py.lookup String.eqb Ascii.eqb Bool.eqb lift ret raise Py.getitem
       Py.getitem0 Py.truthy negb].
  rewrite Hnode. cbn [lift ret raise Py.getitem]. rewrite Hid.
  cbn [lift ret raise].
  rewrite execute_query_answer. fold (restart_payload latest).
  rewrite Hrestart. unfold ok. rewrite (answer_object str 200 _ eq_refl).
  cbn [Py.lookup String.eqb Ascii.eqb Bool.eqb lift ret raise Py.getitem].
  rewrite Hack. cbn [lift ret raise]. rewrite <- app_assoc. reflexivity.
Qed.

(** X8: the handler leaves in two ways only: with [success: True], after
    the listing and one restart, or with a 500 whose detail is
    [Deployment trigger failed: ] followed by the text of what was raised,
    after the listing alone or after the listing and one restart.  It never
    posts more than these two payloads, and never a restart before the
    listing. *)
Theorem trigger_deployment_outcomes request log :
  (snd (trigger_deployment upstream str request log)
   = log ++ [listing_payload request]
   \/ exists latest,
        snd (trigger_deployment upstream str request log)
        = log ++ [listing_payload request; restart_payload latest])
  /\ match fst (trigger_deployment upstream str request log) with
     | inr response =>
         exists latest ack,
           response = JObj [("success", JBool true);
                            ("deployment_id", latest);
                            ("restarted", ack)]
           /\ snd (trigger_deployment upstream str request log)
              = log ++ [listing_payload request; restart_payload latest]
     | inl e =>
         exists cause,
           e = HTTPException 500
                 (DStr ("Deployment trigger failed: " ++ str cause)%string)
     end.
Proof.
  unfold trigger_deployment, try_except, bind.
  rewrite execute_query_answer. fold (listing_payload request).
  destruct (answer str _) as [e | result]; cbn [fst snd];
    [split; [left; reflexivity | eexists; reflexivity] |].
  destruct (Py.getitem result "deployments") as [e | listing];
    cbn [lift raise ret fst snd];
    [split; [left; reflexivity | eexists; reflexivity] |].
  destruct (Py.getitem listing "edges") as [e | deployments];
    cbn [lift raise ret fst snd];
    [split; [left; reflexivity | eexists; reflexivity] |].
  destruct (Py.truthy deployments); cbn [negb raise ret fst snd];
    [| split; [left; reflexivity | eexists; reflexivity]].
  destruct (Py.getitem0 deployments) as [e | first_edge];
    cbn [lift raise ret fst snd];
    [split; [left; reflexivity | eexists; reflexivity] |].
  destruct (Py.getitem first_edge "node") as [e | node];
    cbn [lift raise ret fst snd];
    [split; [left; reflexivity | eexists; reflexivity] |].
  destruct (Py.getitem node "id") as [e | latest];
    cbn [lift raise ret fst snd];
    [split; [left; reflexivity | eexists; reflexivity] |].
  rewrite execute_query_answer. fold (restart_payload latest).
  rewrite <- app_assoc. cbn [app].
  destruct (answer str _) as [e | restart_result]; cbn [fst snd];
    [split; [right; eexists; reflexivity | eexists; reflexivity] |].
  destruct (Py.getitem restart_result "deploymentRestart") as [e | ack];
    cbn [lift raise ret fst snd];
    [split; [right; eexists; reflexivity | eexists; reflexivity] |].
  split; [right; eexists; reflexivity |].
  exists latest, ack. split; reflexivity.
Qed.

End DeploymentTriggerCalls.

Lemma trigger_deployment_success_witness :
  trigger_deployment (scripted [one_deployment; restart_refused]) render
    trigger []
  = (inr (JObj [("success", JBool true);
                ("deployment_id", JStr "dep-1");
                ("restarted", JBool false)]),
     [] ++ [listing_payload trigger; restart_payload (JStr "dep-1")]).
Proof.
  exact (trigger_deployment_success
           (scripted [one_deployment; restart_refused]) render trigger []
           [("node", JObj [("id", JStr "dep-1"); ("status", JStr "SUCCESS")])]
           [("id", JStr "dep-1"); ("status", JStr "SUCCESS")] []
           (JStr "dep-1") [("deploymentRestart", JBool false)] (JBool false)
           eq_refl eq_refl eq_refl eq_refl eq_refl).
Defined.

(** ** Service status *)

Section ServiceStatus.

Variable upstream : list json -> json -> reply.
Variable str : exc -> string.

(** X9: when the upstream answers with a [service] object that has the
    three fields, the handler returns them verbatim, whatever their values,
    a null name included, beside the fixed status [active]; one payload is
    posted. *)
Theorem get_service_status_success service_id log service id name
    created_at :
  upstream log (status_payload service_id)
  = ok (JObj [("service", JObj service)]) ->
  Py.lookup "id" service = Some id ->
  Py.lookup "name" service = Some name ->
  Py.lookup "createdAt" service = Some created_at ->
  get_service_status upstream str service_id log
  = (inr (JObj [("service_id", id);
                ("name", name);
                ("created_at", created_at);
                ("status", JStr "active")]),
     log ++ [status_payload service_id]).
Proof.
  intros Hreply Hid Hname Hcreated.
  unfold get_service_status, try_except, bind.
  rewrite execute_query_answer. fold (status_payload service_id).
  rewrite Hreply. unfold ok. rewrite (answer_object str 200 _ eq_refl).
  cbn [Py.lookup String.eqb Ascii.eqb Bool.eqb lift ret raise Py.getitem].
  rewrite Hid. cbn [lift ret raise]. rewrite Hname. cbn [lift ret raise].
  rewrite Hcreated. reflexivity.
Qed.

(** X10: the handler posts the one payload of the query and leaves in two
    ways only: with a dict whose status is [active], or with a 500 whose
    detail is [Status query failed: ] followed by the text of what was
    raised. *)
Theorem get_service_status_outcomes service_id log :
  snd (get_service_status upstream str service_id log)
  = log ++ [status_payload service_id]
  /\ match fst (get_service_status upstream str service_id log) with
     | inr response =>
         exists id name created_at,
           response = JObj [("service_id", id);
                            ("name", name);
                            ("created_at", created_at);
                            ("status", JStr "active")]
     | inl e =>
         exists cause,
           e = HTTPException 500
                 (DStr ("Status query failed: " ++ str cause)%string)
     end.
Proof.
  unfold get_service_status, try_except, bind.
  rewrite execute_query_answer. fold (status_payload service_id).
  split.
  - destruct (answer str _) as [e | result]; [reflexivity |].
    lift_cases; reflexivity.
  - destruct (answer str _) as [e | result]; cbn [fst];
      [eexists; reflexivity |].
    lift_cases; cbn [fst]; try (eexists; reflexivity).
    do 3 eexists. reflexivity.
Qed.

(** X11: a service the upstream does not know, answered with a [service]
    that is null (or anything but an object), is no 404: subscripting it
    raises a [TypeError], and the caller gets the 500 of every other
    failure. *)
Theorem get_service_status_unknown_service service_id log service :
  upstream log (status_payload service_id)
  = ok (JObj [("service", service)]) ->
  (forall fields, service <> JObj fields) ->
  fst (get_service_status upstream str service_id log)
  = inl (HTTPException 500
           (DStr ("Status query failed: " ++ str TypeError)%string)).
Proof.
  intros Hreply Hshape.
  unfold get_service_status, try_except, bind.
  rewrite execute_query_answer. fold (status_payload service_id).
  rewrite Hreply. unfold ok.
  rewrite (answer_object str 200 _ eq_refl).
  cbn [Py.lookup String.eqb Ascii.eqb Bool.eqb lift ret raise Py.getitem].
  destruct service; try reflexivity. destruct (Hshape fields eq_refl).
Qed.

End ServiceStatus.

Lemma get_service_status_success_witness :
  get_service_status (scripted [service_found]) render "svc-1" []
  = (inr (JObj [("service_id", JStr "svc-1");
                ("name", JNull);
                ("created_at", JStr "2025-09-25T04:47:30Z");
                ("status", JStr "active")]),
     [] ++ [status_payload "svc-1"]).
Proof.
  exact (get_service_status_success (scripted [service_found]) render
           "svc-1" []
           [("id", JStr "svc-1"); ("name", JNull);
            ("createdAt", JStr "2025-09-25T04:47:30Z")]
           (JStr "svc-1") JNull (JStr "2025-09-25T04:47:30Z")
           eq_refl eq_refl eq_refl eq_refl).
Defined.

Lemma get_service_status_unknown_service_witness :
  fst (get_service_status (scripted [ok (JObj [("service", JNull)])]) render
         "svc-404" [])
  = inl (HTTPException 500 (DStr "Status query failed: TypeError")).
Proof.
  apply (get_service_status_unknown_service
           (scripted [ok (JObj [("service", JNull)])]) render "svc-404" []
           JNull); [reflexivity | discriminate].
Defined.


(** ** Variable assignment, the response and the calls *)

Section VariableAssignmentCalls.

Variable upstream : list json -> json -> reply.
Variable str : exc -> string.

Lemma filter_partition {A} (f : A -> bool) (l : list A) :
  List.length (filter f l) + List.length (filter (fun x => negb (f x)) l)
  = List.length l.
Proof.
  induction l as [| x l IH]; [reflexivity |].
  cbn. destruct (f x); cbn; lia.
Qed.

Lemma attempts_length request environment_id items :
  forall log,
    List.length (attempts upstream str request environment_id log items)
    = List.length items.
Proof.
  induction items as [| item rest IH]; intros log; [reflexivity |].
  cbn. rewrite IH. reflexivity.
Qed.

(** When each upsert of a run is accepted, on the log the run has reached
    by then, every verdict is a success. *)
Lemma attempts_accepted request environment_id items :
  forall log,
    (forall i item,
        nth_error items i = Some item ->
        upserted str
          (upstream
             (log ++ map (upsert_payload request environment_id)
                       (firstn i items))
             (upsert_payload request environment_id item))
        = true) ->
    succeeded (attempts upstream str request environment_id log items)
    = map fst items
    /\ failed (attempts upstream str request environment_id log items) = [].
Proof.
  unfold succeeded, failed.
  induction items as [| item rest IH]; intros log Hall;
    [split; reflexivity |].
  cbn [attempts filter map fst snd].
  pose proof (Hall 0 item eq_refl) as Hhead.
  cbn [firstn map] in Hhead. rewrite app_nil_r in Hhead.
  rewrite Hhead. cbn [negb map fst].
  destruct (IH (log ++ [upsert_payload request environment_id item]))
    as [Hs Hf].
  { intros i next Hnext. rewrite <- app_assoc.
    exact (Hall (S i) next Hnext). }
  rewrite Hs, Hf. split; reflexivity.
Qed.

(** X12: the handler never raises: it always returns a response, whose
    [success] is true exactly when its [errors] list is empty, after
    posting at most the project query and one upsert for each variable. *)
Theorem set_variables_never_raises request log :
  exists response calls,
    set_variables upstream str request log = (inr response, log ++ calls)
    /\ List.length calls
       <= 1 + List.length (VariableSetRequest.variables request)
    /\ (VariableResponse.success response = true
        <-> VariableResponse.errors response = []).
Proof.
  assert (Hflag : forall msgs : list string,
            (List.length msgs =? 0)%nat = true <-> msgs = [])
    by (intros [| m msgs]; cbn; split; congruence).
  destruct (Py.truthy
              (Py.of_optional (VariableSetRequest.environment_id request)))
    eqn:Htruthy.
  - pose proof (resolve_supplied upstream str request log Htruthy) as Hres.
    destruct (set_variables_resolved upstream str request log _ _ Hres)
      as (msgs & Hrun & _).
    cbn zeta in Hrun. do 2 eexists. split; [exact Hrun |].
    rewrite length_map. split; [lia | apply Hflag].
  - destruct (resolve_lookup upstream str request log Htruthy)
      as (r & Hres & Hr).
    destruct r as [early | environment_id].
    + destruct Hr as [e ->].
      exists (resolution_failure str e), [project_payload request].
      split; [apply set_variables_early; exact Hres |].
      cbn. split; [lia | split; discriminate].
    + destruct (set_variables_resolved upstream str request log _ _ Hres)
        as (msgs & Hrun & _).
      cbn zeta in Hrun. rewrite <- app_assoc in Hrun.
      do 2 eexists. split; [exact Hrun |].
      cbn [app List.length]. rewrite length_map.
      split; [lia | apply Hflag].
Qed.

(** X13: once the loop is reached, every variable is accounted for once:
    the entries of [variables_set] and of [errors] together are as many as
    the variables of the request, and every name of [variables_set] is a
    name of the request. *)
Theorem set_variables_accounts_for_each request log environment_id log1
    response :
  resolve_environment_id upstream str request log
  = (inr (inr environment_id), log1) ->
  fst (set_variables upstream str request log) = inr response ->
  List.length (VariableResponse.variables_set response)
  + List.length (VariableResponse.errors response)
  = List.length (VariableSetRequest.variables request)
  /\ incl (VariableResponse.variables_set response)
          (map fst (VariableSetRequest.variables request)).
Proof.
  intros Hres Hrun.
  destruct (set_variables_resolved upstream str request log _ _ Hres)
    as (msgs & Hrun' & Hmsgs).
  cbn zeta in Hrun'. rewrite Hrun' in Hrun. cbn [fst] in Hrun.
  injection Hrun as <-. cbn [VariableResponse.variables_set
                             VariableResponse.errors].
  split.
  - rewrite (Forall2_length Hmsgs). unfold succeeded, failed.
    rewrite !length_map, filter_partition. apply attempts_length.
  - rewrite <- (attempts_names upstream str request environment_id
                  (VariableSetRequest.variables request) log1).
    unfold succeeded. intros name Hin. apply in_map_iff in Hin.
    destruct Hin as (r & <- & Hr). apply filter_In in Hr.
    apply in_map, Hr.
Qed.

(** X14: when the upstream accepts every upsert of the run, each one on
    the log the run has reached when it is posted, the response is
    [success=true] with every name of the request, in the order of the
    request, and no error. *)
Theorem set_variables_all_accepted request log environment_id log1 :
  resolve_environment_id upstream str request log
  = (inr (inr environment_id), log1) ->
  (forall i item,
      nth_error (VariableSetRequest.variables request) i = Some item ->
      upserted str
        (upstream
           (log1 ++ map (upsert_payload request environment_id)
                      (firstn i (VariableSetRequest.variables request)))
           (upsert_payload request environment_id item))
      = true) ->
  fst (set_variables upstream str request log)
  = inr (VariableResponse.Build true
           (map fst (VariableSetRequest.variables request)) []).
Proof.
  intros Hres Hall.
  destruct (set_variables_resolved upstream str request log _ _ Hres)
    as (msgs & Hrun & Hmsgs).
  cbn zeta in *.
  destruct (attempts_accepted request environment_id _ log1 Hall)
    as [Hs Hf].
  rewrite Hf in Hmsgs. inversion Hmsgs; subst.
  rewrite Hrun, Hs. reflexivity.
Qed.

(** X15: an environment id given in the request, if not empty, is used as
    it is: no project query is posted, and the upserts, one for each
    variable in order, all carry that id. *)
Theorem supplied_environment_skips_lookup request log id :
  VariableSetRequest.environment_id request = Some id ->
  id <> "" ->
  snd (set_variables upstream str request log)
  = log ++ map (upsert_payload request (JStr id))
             (VariableSetRequest.variables request).
Proof.
  intros Hid Hnonempty.
  assert (Htruthy : Py.truthy
            (Py.of_optional (VariableSetRequest.environment_id request))
            = true).
  { rewrite Hid. cbn. destruct (String.eqb_spec id ""); [contradiction |].
    reflexivity. }
  pose proof (resolve_supplied upstream str request log Htruthy) as Hres.
  rewrite Hid in Hres. cbn [Py.of_optional] in Hres.
  destruct (set_variables_resolved upstream str request log _ _ Hres)
    as (msgs & Hrun & _).
  cbn zeta in Hrun. rewrite Hrun. reflexivity.
Qed.

(** The lookup on a decoded list of edges, up to the loop. *)
Lemma resolve_on_edges request log items :
  Py.truthy (Py.of_optional (VariableSetRequest.environment_id request))
  = false ->
  upstream log (project_payload request) = edges_reply items ->
  resolve_environment_id upstream str request log
  = try_except
      (environment_id <-
         production_loop items
           (Py.of_optional (VariableSetRequest.environment_id request)) ;;
       if negb (Py.truthy environment_id) && Py.truthy (JArr items)
       then (first <- lift (Py.getitem0 (JArr items)) ;;
             node <- lift (Py.getitem first "node") ;;
             environment_id <- lift (Py.getitem node "id") ;;
             ret (inr environment_id))
       else ret (inr environment_id))
      (fun e => ret (inl (resolution_failure str e)))
      (log ++ [project_payload request]).
Proof.
  intros Htruthy Hreply.
  unfold resolve_environment_id. rewrite Htruthy. cbn [negb].
  unfold try_except, bind at 1 2 3 4 5. rewrite execute_query_answer.
  fold (project_payload request). rewrite Hreply.
  unfold edges_reply, ok. rewrite (answer_object str 200 _ eq_refl).
  reflexivity.
Qed.

Lemma production_loop_found before prod rest init log :
  forallb (fun env => negb (is_production env)) before = true ->
  is_production prod = true ->
  production_loop (map edge before ++ edge prod :: rest) init log
  = (inr (JStr (fst prod)), log).
Proof.
  intros Hbefore Hprod.
  induction before as [| env before IH]; cbn [map app production_loop].
  - unfold bind. cbn. unfold is_production in Hprod. rewrite Hprod.
    reflexivity.
  - cbn [forallb] in Hbefore. apply andb_true_iff in Hbefore.
    destruct Hbefore as [Henv Hbefore].
    unfold bind at 1. cbn. unfold is_production in Henv.
    destruct (Py.lower_string (snd env) =? "production");
      [discriminate | exact (IH Hbefore)].
Qed.

Lemma production_loop_malformed before bad rest init log e :
  forallb (fun env => negb (is_production env)) before = true ->
  Py.getitem bad "node" = inl e ->
  production_loop (map edge before ++ bad :: rest) init log = (inl e, log).
Proof.
  intros Hbefore Hbad.
  induction before as [| env before IH]; cbn [map app production_loop].
  - unfold bind. rewrite Hbad. reflexivity.
  - cbn [forallb] in Hbefore. apply andb_true_iff in Hbefore.
    destruct Hbefore as [Henv Hbefore].
    unfold bind at 1. cbn. unfold is_production in Henv.
    destruct (Py.lower_string (snd env) =? "production");
      [discriminate | exact (IH Hbefore)].
Qed.

(** X16: with no environment id in the request and a list of environments
    whose production entry, if there is one, has a non-empty id, the
    handler posts the project query and then every upsert with the id of
    the first entry named production in any case, else of the first entry,
    else with a null id. *)
Theorem environment_selection request log envs :
  VariableSetRequest.environment_id request = None ->
  upstream log (project_payload request) = environments_reply envs ->
  (forall env, find is_production envs = Some env -> fst env <> "") ->
  snd (set_variables upstream str request log)
  = (log ++ [project_payload request])
    ++ map (upsert_payload request (selected envs))
         (VariableSetRequest.variables request).
Proof.
  intros Hnone Hreply Hid.
  pose proof (resolution_selects upstream str request log envs
                Hnone Hreply Hid) as Hres.
  destruct (set_variables_resolved upstream str request log _ _ Hres)
    as (msgs & Hrun & _).
  cbn zeta in Hrun. rewrite Hrun. reflexivity.
Qed.

(** X17: the search stops at the first entry named production: what comes
    after it in the list is not read, so that an entry there that is no
    edge at all does no harm. *)
Theorem entries_after_production_are_not_read request log before prod rest :
  Py.truthy (Py.of_optional (VariableSetRequest.environment_id request))
  = false ->
  upstream log (project_payload request)
  = edges_reply (map edge before ++ edge prod :: rest) ->
  forallb (fun env => negb (is_production env)) before = true ->
  is_production prod = true ->
  fst prod <> "" ->
  resolve_environment_id upstream str request log
  = (inr (inr (JStr (fst prod))), log ++ [project_payload request]).
Proof.
  intros Htruthy Hreply Hbefore Hprod Hid.
  rewrite (resolve_on_edges request log _ Htruthy Hreply).
  unfold try_except, bind at 1.
  rewrite (production_loop_found _ _ _ _ _ Hbefore Hprod).
  cbn [Py.truthy]. destruct (String.eqb_spec (fst prod) "");
    [contradiction | reflexivity].
Qed.

(** X18: an entry that is no edge, met before any entry named production,
    fails the lookup: the handler answers [success=false] with the one
    message of that failure and posts no upsert, whatever the entries
    after it. *)
Theorem malformed_entry_fails_lookup request log before bad rest e :
  Py.truthy (Py.of_optional (VariableSetRequest.environment_id request))
  = false ->
  upstream log (project_payload request)
  = edges_reply (map edge before ++ bad :: rest) ->
  forallb (fun env => negb (is_production env)) before = true ->
  Py.getitem bad "node" = inl e ->
  set_variables upstream str request log
  = (inr (resolution_failure str e), log ++ [project_payload request]).
Proof.
  intros Htruthy Hreply Hbefore Hbad.
  apply set_variables_early.
  rewrite (resolve_on_edges request log _ Htruthy Hreply).
  unfold try_except, bind at 1.
  rewrite (production_loop_malformed _ _ _ _ _ _ Hbefore Hbad).
  reflexivity.
Qed.

End VariableAssignmentCalls.

Lemma set_variables_accounts_for_each_witness :
  List.length ["A"; "C"] + List.length ["Failed to set B: HTTPException"]
  = List.length (VariableSetRequest.variables three_variables)
  /\ incl ["A"; "C"] (map fst (VariableSetRequest.variables three_variables)).
Proof.
  exact (set_variables_accounts_for_each second_rejected render
           three_variables [] (JStr "env-1") []
           (VariableResponse.Build false ["A"; "C"]
              ["Failed to set B: HTTPException"])
           eq_refl eq_refl).
Defined.

Lemma set_variables_all_accepted_witness :
  fst (set_variables three_accepted render three_variables [])
  = inr (VariableResponse.Build true ["A"; "B"; "C"] []).
Proof.
  apply (set_variables_all_accepted three_accepted render three_variables []
           (JStr "env-1") []); [reflexivity |].
  intros [| [| [| i]]] item Hitem; cbn in Hitem.
  - injection Hitem as <-. reflexivity.
  - injection Hitem as <-. reflexivity.
  - injection Hitem as <-. reflexivity.
  - destruct i; discriminate Hitem.
Defined.

Lemma supplied_environment_skips_lookup_witness :
  snd (set_variables second_rejected render three_variables [])
  = [] ++ map (upsert_payload three_variables (JStr "env-1"))
            (VariableSetRequest.variables three_variables).
Proof.
  apply (supplied_environment_skips_lookup second_rejected render
           three_variables [] "env-1"); [reflexivity | discriminate].
Defined.

Lemma environment_selection_witness :
  snd (set_variables
         (scripted [environments_reply [("a", "staging"); ("b", "Production")]])
         render one_variable [])
  = ([] ++ [project_payload one_variable])
    ++ map (upsert_payload one_variable (JStr "b"))
         (VariableSetRequest.variables one_variable).
Proof.
  apply (environment_selection
           (scripted
              [environments_reply [("a", "staging"); ("b", "Production")]])
           render one_variable [] [("a", "staging"); ("b", "Production")]);
    [reflexivity | reflexivity |].
  intros env [= <-]. discriminate.
Defined.

Lemma entries_after_production_are_not_read_witness :
  resolve_environment_id (scripted [edges_reply production_then_junk]) render
    one_variable []
  = (inr (inr (JStr "b")), [] ++ [project_payload one_variable]).
Proof.
  apply (entries_after_production_are_not_read
           (scripted [edges_reply production_then_junk]) render one_variable
           [] [("a", "staging")] ("b", "PRODUCTION") [JNull]);
    [reflexivity | reflexivity | reflexivity | reflexivity | discriminate].
Defined.

Lemma malformed_entry_fails_lookup_witness :
  set_variables (scripted [edges_reply junk_then_production]) render
    one_variable []
  = (inr (VariableResponse.Build false []
            ["Failed to get environment ID: TypeError"]),
     [] ++ [project_payload one_variable]).
Proof.
  exact (malformed_entry_fails_lookup
           (scripted [edges_reply junk_then_production]) render one_variable
           [] [("a", "staging")] JNull [edge ("b", "production")] TypeError
           eq_refl eq_refl eq_refl eq_refl).
Defined.

(** ** Handlers keep no state *)

Section Oblivious.

Variable upstream : list json -> json -> reply.
Variable str : exc -> string.
Hypothesis upstream_stateless : stateless upstream.

Lemma oblivious_ret {A} (a : A) : oblivious (ret a).
Proof. intros log1 log2. reflexivity. Qed.

Lemma oblivious_raise {A} (e : exc) : oblivious (@raise A e).
Proof. intros log1 log2. reflexivity. Qed.

Lemma oblivious_lift {A} (r : exc + A) : oblivious (lift r).
Proof. destruct r; [apply oblivious_raise | apply oblivious_ret]. Qed.

Lemma oblivious_bind {A B} (m : M A) (k : A -> M B) :
  oblivious m -> (forall a, oblivious (k a)) -> oblivious (bind m k).
Proof.
  intros Hm Hk log1 log2. unfold bind. specialize (Hm log1 log2).
  destruct (m log1) as [[e1 | a1] l1], (m log2) as [[e2 | a2] l2];
    cbn [fst] in *; try discriminate.
  - injection Hm as <-. reflexivity.
  - injection Hm as <-. apply Hk.
Qed.

Lemma oblivious_try_except {A} (m : M A) (h : exc -> M A) :
  oblivious m -> (forall e, oblivious (h e)) -> oblivious (try_except m h).
Proof.
  intros Hm Hh log1 log2. unfold try_except. specialize (Hm log1 log2).
  destruct (m log1) as [[e1 | a1] l1], (m log2) as [[e2 | a2] l2];
    cbn [fst] in *; try discriminate.
  - injection Hm as <-. apply Hh.
  - exact Hm.
Qed.

Lemma oblivious_execute_query query variables :
  oblivious (execute_query upstream str query variables).
Proof.
  intros log1 log2. rewrite !execute_query_answer. cbn [fst].
  rewrite (upstream_stateless log1 log2). reflexivity.
Qed.

Lemma oblivious_production_loop items init :
  oblivious (production_loop items init).
Proof.
  induction items as [| env rest IH]; [apply oblivious_ret |].
  cbn [production_loop].
  repeat (apply oblivious_bind; [apply oblivious_lift | intros ?]).
  destruct (_ =? "production"); [| exact IH].
  apply oblivious_bind; [apply oblivious_lift | intros ?].
  apply oblivious_lift.
Qed.

Lemma oblivious_upsert_loop request environment_id items :
  forall success_vars error_vars,
    oblivious (upsert_loop upstream str request environment_id items
                 success_vars error_vars).
Proof.
  induction items as [| [key value] rest IH]; intros success_vars error_vars;
    [apply oblivious_ret |].
  cbn [upsert_loop].
  apply oblivious_bind; [| intros lists; apply IH].
  apply oblivious_try_except; [| intros e; apply oblivious_ret].
  apply oblivious_bind; [apply oblivious_execute_query | intros result].
  apply oblivious_bind; [apply oblivious_lift | intros upserted].
  destruct (Py.is_True upserted); apply oblivious_ret.
Qed.

Lemma oblivious_resolve request :
  oblivious (resolve_environment_id upstream str request).
Proof.
  unfold resolve_environment_id.
  destruct (negb _); [| apply oblivious_ret].
  apply oblivious_try_except; [| intros e; apply oblivious_ret].
  apply oblivious_bind; [apply oblivious_execute_query | intros result].
  repeat (apply oblivious_bind; [apply oblivious_lift | intros ?]).
  apply oblivious_bind; [apply oblivious_production_loop | intros id].
  destruct (negb _ && _); [| apply oblivious_ret].
  repeat (apply oblivious_bind; [apply oblivious_lift | intros ?]).
  apply oblivious_ret.
Qed.

(** X19: against an upstream whose replies depend on the payload alone,
    what a handler returns does not depend on the calls made before it:
    the same request gets the same answer each time it is issued.  The
    handlers keep no state of their own. *)
Theorem handlers_keep_no_state log1 log2 :
  (forall request,
      fst (set_variables upstream str request log1)
      = fst (set_variables upstream str request log2))
  /\ (forall request,
        fst (create_service upstream str request log1)
        = fst (create_service upstream str request log2))
  /\ (forall request,
        fst (trigger_deployment upstream str request log1)
        = fst (trigger_deployment upstream str request log2))
  /\ (forall service_id,
        fst (get_service_status upstream str service_id log1)
        = fst (get_service_status upstream str service_id log2)).
Proof.
  repeat split; intros x; revert log1 log2;
    match goal with
    | |- forall l1 l2, fst (?m l1) = fst (?m l2) => change (oblivious m)
    end.
  - unfold set_variables.
    apply oblivious_bind; [apply oblivious_resolve | intros resolved].
    destruct resolved as [early | environment_id]; [apply oblivious_ret |].
    apply oblivious_bind; [apply oblivious_upsert_loop | intros lists].
    apply oblivious_ret.
  - unfold create_service.
    apply oblivious_try_except; [| intros e; apply oblivious_raise].
    apply oblivious_bind; [apply oblivious_execute_query | intros result].
    repeat (apply oblivious_bind; [apply oblivious_lift | intros ?]).
    apply oblivious_ret.
  - unfold trigger_deployment.
    apply oblivious_try_except; [| intros e; apply oblivious_raise].
    apply oblivious_bind; [apply oblivious_execute_query | intros result].
    repeat (apply oblivious_bind; [apply oblivious_lift | intros ?]).
    apply oblivious_bind;
      [destruct (negb _); [apply oblivious_raise | apply oblivious_ret] |
       intros _].
    repeat (apply oblivious_bind; [apply oblivious_lift | intros ?]).
    apply oblivious_bind; [apply oblivious_execute_query | intros restarted].
    apply oblivious_bind; [apply oblivious_lift | intros ?].
    apply oblivious_ret.
  - unfold get_service_status.
    apply oblivious_try_except; [| intros e; apply oblivious_raise].
    apply oblivious_bind; [apply oblivious_execute_query | intros result].
    repeat (apply oblivious_bind; [apply oblivious_lift | intros ?]).
    apply oblivious_ret.
Qed.

End Oblivious.

Lemma handlers_keep_no_state_witness :
  fst (set_variables accepting render three_variables [])
  = fst (set_variables accepting render three_variables
           (snd (set_variables accepting render three_variables []))).
Proof.
  exact (proj1 (handlers_keep_no_state accepting render
                  (fun _ _ _ => eq_refl) []
                  (snd (set_variables accepting render three_variables [])))
           three_variables).
Defined.

(** ** Secret generation, distinct keys *)

(** X20: two calls whose 32 bytes of entropy differ somewhere return
    different keys, whatever the clock and the calls made before. *)
Theorem distinct_entropy_distinct_keys urandom1 urandom2 now1 now2 log1 log2
    i :
  i < 32 ->
  urandom1 i <> urandom2 i ->
  field "secret_key" (fst (generate_secret_key urandom1 now1 log1))
  <> field "secret_key" (fst (generate_secret_key urandom2 now2 log2)).
Proof.
  intros Hi Hdiff Heq.
  assert (Hkey : forall urandom now log,
            field "secret_key" (fst (generate_secret_key urandom now log))
            = inr (JStr (token_hex urandom 32)))
    by reflexivity.
  rewrite !Hkey in Heq. clear Hkey.
  remember (token_hex urandom1 32) as hex1 eqn:E1.
  remember (token_hex urandom2 32) as hex2 eqn:E2.
  assert (H : hex1 = hex2) by congruence.
  subst hex1 hex2. clear Heq.
  unfold token_hex in H. apply (f_equal unhexlify) in H.
  rewrite !unhexlify_hexlify in H.
  remember (token_bytes urandom1 32) as bytes1 eqn:E1.
  remember (token_bytes urandom2 32) as bytes2 eqn:E2.
  assert (H' : bytes1 = bytes2) by congruence.
  subst bytes1 bytes2. clear H. rename H' into H.
  unfold token_bytes in H.
  apply (f_equal (fun l => nth_error l i)) in H.
  rewrite !nth_error_map, !nth_error_seq in H.
  destruct (Nat.ltb_spec i 32); [| lia].
  cbn in H. injection H as H. apply Hdiff. exact H.
Qed.

Lemma distinct_entropy_distinct_keys_witness :
  field "secret_key" (fst (generate_secret_key (fun _ => x00) "t1" []))
  <> field "secret_key" (fst (generate_secret_key (fun _ => xff) "t2" [])).
Proof.
  apply (distinct_entropy_distinct_keys (fun _ => x00) (fun _ => xff)
           "t1" "t2" [] [] 0); [lia | discriminate].
Defined.
